(** * A shallow embedding of the RAG pipeline (rag-bedrock-llamaindex)

    The Python sources under [core/] and [frontend/] are embedded as pure
    functions.  Calls that leave the process (AWS Bedrock, LlamaIndex,
    the file system) are taken as explicit collaborators whose outcome is
    either a returned value or a raised exception. *)

From Stdlib Require Import ZArith QArith Qround Qabs Lqa List String Ascii Bool Lia.
From Stdlib Require Import Sorted Permutation.
Import ListNotations.

Set Warnings "-register-all".

Local Open Scope string_scope.
Local Open Scope Z_scope.

(** ** Python values, exceptions and the operations the code uses *)

Module Py.

(** Values as [json.loads] produces them and as dict and list literals
    build them.  A dict keeps its items in insertion order; a float is
    idealised as the exact rational it denotes. *)
Inductive pyval : Type :=
| PNone
| PBool (b : bool)
| PInt (z : Z)
| PFloat (q : Q)
| PStr (s : string)
| PList (l : list pyval)
| PDict (items : list (string * pyval)).

Definition pydict : Type := list (string * pyval).

(** The exception classes that occur in the sources. *)
Inductive exc_class : Type :=
| BotoCoreError | ClientError | JSONDecodeError
| RuntimeError | ValueError | KeyError | IndexError | TypeError
| ConnectionError | FileNotFoundError | OtherException.

(** An instance of [Exception]: its class and [str(e)]. *)
Record pyexc : Type := MkExc { exc_cls : exc_class; exc_str : string }.

Inductive outcome (A : Type) : Type :=
| Returns (a : A)
| Raises (e : pyexc).
Arguments Returns {A} a.
Arguments Raises {A} e.

Definition bind {A B : Type} (m : outcome A) (k : A -> outcome B) : outcome B :=
  match m with
  | Returns a => k a
  | Raises e => Raises e
  end.

(** [try: body / except Exception as e: handler e] *)
Definition try_except {A : Type} (body : outcome A) (handler : pyexc -> outcome A)
  : outcome A :=
  match body with
  | Returns a => Returns a
  | Raises e => handler e
  end.

Definition is_returns {A : Type} (m : outcome A) : bool :=
  match m with Returns _ => true | Raises _ => false end.

Definition exc_class_eqb (a b : exc_class) : bool :=
  match a, b with
  | BotoCoreError, BotoCoreError | ClientError, ClientError
  | JSONDecodeError, JSONDecodeError | RuntimeError, RuntimeError
  | ValueError, ValueError | KeyError, KeyError | IndexError, IndexError
  | TypeError, TypeError | ConnectionError, ConnectionError
  | FileNotFoundError, FileNotFoundError
  | OtherException, OtherException => true
  | _, _ => false
  end.

(** [isinstance(e, cls)] for the classes named in [except] clauses:
    [JSONDecodeError] derives from [ValueError]. *)
Definition isinstance (e : pyexc) (cls : exc_class) : bool :=
  exc_class_eqb (exc_cls e) cls
  || match exc_cls e, cls with
     | JSONDecodeError, ValueError => true
     | _, _ => false
     end.

(** Dict lookup by key. *)
Fixpoint dict_get (k : string) (d : pydict) : option pyval :=
  match d with
  | [] => None
  | (k', v) :: d' => if String.eqb k k' then Some v else dict_get k d'
  end.

(** Subscript keys: [obj['name']] and [obj[0]]. *)
Inductive pykey : Type :=
| KStr (s : string)
| KInt (i : Z).

(** [repr] of a string key without characters that need escaping. *)
Definition repr_str (s : string) : string := "'" ++ s ++ "'".

Definition digit_char (d : Z) : string :=
  String (ascii_of_nat (48 + Z.to_nat d)) EmptyString.

Fixpoint str_of_pos_fuel (fuel : nat) (z : Z) (acc : string) : string :=
  match fuel with
  | O => acc
  | S fuel' =>
      let acc' := digit_char (z mod 10) ++ acc in
      if z / 10 =? 0 then acc' else str_of_pos_fuel fuel' (z / 10) acc'
  end.

(** [str(i)] for an integer. *)
Definition str_of_int (z : Z) : string :=
  if z <? 0 then "-" ++ str_of_pos_fuel (S (Z.to_nat (Z.log2 (- z)))) (- z) ""
  else str_of_pos_fuel (S (Z.to_nat (Z.log2 z))) z "".

(** Python's sequence index: a negative index counts from the end. *)
Definition seq_index {A : Type} (l : list A) (i : Z) : option A :=
  let n := Z.of_nat (List.length l) in
  let j := if i <? 0 then i + n else i in
  if (j <? 0) || (n <=? j) then None else nth_error l (Z.to_nat j).

Definition str_index (s : string) (i : Z) : option ascii :=
  let n := Z.of_nat (String.length s) in
  let j := if i <? 0 then i + n else i in
  if (j <? 0) || (n <=? j) then None else String.get (Z.to_nat j) s.

(** [obj[key]] *)
Definition py_getitem (obj : pyval) (key : pykey) : outcome pyval :=
  match obj, key with
  | PDict d, KStr k =>
      match dict_get k d with
      | Some v => Returns v
      | None => Raises (MkExc KeyError (repr_str k))
      end
  | PDict _, KInt i => Raises (MkExc KeyError (str_of_int i))
  | PList l, KInt i =>
      match seq_index l i with
      | Some v => Returns v
      | None => Raises (MkExc IndexError "list index out of range")
      end
  | PList _, KStr _ =>
      Raises (MkExc TypeError "list indices must be integers or slices, not str")
  | PStr s, KInt i =>
      match str_index s i with
      | Some c => Returns (PStr (String c EmptyString))
      | None => Raises (MkExc IndexError "string index out of range")
      end
  | PStr _, KStr _ =>
      Raises (MkExc TypeError "string indices must be integers, not 'str'")
  | _, _ => Raises (MkExc TypeError "object is not subscriptable")
  end.

(** The numeric tower as far as [+] needs it: [bool] is an [int]. *)
Definition as_int (v : pyval) : option Z :=
  match v with
  | PBool b => Some (Z.b2z b)
  | PInt z => Some z
  | _ => None
  end.

Definition as_number (v : pyval) : option Q :=
  match v with
  | PFloat q => Some q
  | _ => option_map inject_Z (as_int v)
  end.

(** [a + b] *)
Definition py_add (a b : pyval) : outcome pyval :=
  match as_int a, as_int b with
  | Some x, Some y => Returns (PInt (x + y))
  | _, _ =>
      match as_number a, as_number b with
      | Some x, Some y => Returns (PFloat (x + y)%Q)
      | _, _ =>
          match a, b with
          | PStr s, PStr t => Returns (PStr (s ++ t))
          | PList l, PList m => Returns (PList (l ++ m))
          | _, _ => Raises (MkExc TypeError "unsupported operand type(s) for +")
          end
      end
  end.

(** [sub in s] on strings. *)
Fixpoint str_contains (sub s : string) : bool :=
  if String.prefix sub s then true
  else match s with
       | EmptyString => false
       | String _ s' => str_contains sub s'
       end.

(** [s[:n]] *)
Definition str_take (n : nat) (s : string) : string := String.substring 0 n s.

(** [round(x, ndigits)] for [ndigits >= 0] on the exact value: to the
    nearest multiple of [10^-ndigits], ties to the even one. *)
Definition round_half_even (x : Q) : Z :=
  let f := Qfloor x in
  match Qcompare (x - inject_Z f) (1 # 2) with
  | Lt => f
  | Gt => f + 1
  | Eq => if Z.even f then f else f + 1
  end.

Definition py_round (x : Q) (ndigits : nat) : Q :=
  let scale := Z.pow 10 (Z.of_nat ndigits) in
  Qmake (round_half_even (x * inject_Z scale)) (Z.to_pos scale).

End Py.

Export Py.

Declare Scope py_scope.
Delimit Scope py_scope with py.
Notation "x <- m ;; k" := (bind m (fun x => k))
  (at level 61, m at next level, right associativity) : py_scope.
Notation "obj .[ k ]" := (py_getitem obj (KStr k))
  (at level 1, left associativity, format "obj .[ k ]") : py_scope.
Local Open Scope py_scope.

(** ** core/embeddings.py *)

Module Embeddings.

(** The object after [__init__]: the model name and the two clients.  A
    client call stands for [invoke_model], reading the body and
    [json.loads]: it returns the decoded response body or raises.
    [_stdout] is the standard output of the process, to which the
    handlers [print]: writing a line returns, or raises what the stream
    raises ([UnicodeEncodeError] for a text it cannot encode). *)
Record CustomTitanEmbedding : Type := {
  model_name : string;
  _client : pyval -> string -> outcome pyval;
  _asession : pyval -> string -> outcome pyval;
  _stdout : string -> outcome unit
}.

Definition request_body (self : CustomTitanEmbedding) (text : string) : pyval :=
  if String.eqb (model_name self) "amazon.titan-embed-text-v1"
  then PDict [("inputText", PStr text)]
  else PDict [("inputText", PStr text);
              ("dimensions", PInt 1024);
              ("normalize", PBool true)].

Definition fallback_dim (self : CustomTitanEmbedding) : nat :=
  if str_contains "v1" (model_name self) then 1536%nat else 1024%nat.

(** The line the handler of [_get_embedding] prints. *)
Definition fallback_warning (text : string) (e : pyexc) : string :=
  "Error generating embedding for text: '" ++ str_take 50 text ++ "...': "
  ++ exc_str e.

(** The line the handler of [_aget_embedding] prints. *)
Definition afallback_warning (text : string) (e : pyexc) : string :=
  "Error generating async embedding for text: '" ++ str_take 50 text ++ "...': "
  ++ exc_str e.

Definition _get_embedding (self : CustomTitanEmbedding) (text : string)
  : outcome pyval :=
  try_except
    (response_body <- _client self (request_body self text) (model_name self) ;;
     embedding <- response_body.["embedding"] ;;
     Returns embedding)
    (fun e =>
       _ <- _stdout self (fallback_warning text e) ;;
       Returns (PList (repeat (PFloat 0) (fallback_dim self)))).

Definition _aget_embedding (self : CustomTitanEmbedding) (text : string)
  : outcome pyval :=
  try_except
    (response_body <- _asession self (request_body self text) (model_name self) ;;
     embedding <- response_body.["embedding"] ;;
     Returns embedding)
    (fun e =>
       _ <- _stdout self (afallback_warning text e) ;;
       Returns (PList (repeat (PFloat 0) (fallback_dim self)))).

Definition _get_query_embedding := _get_embedding.
Definition _get_text_embedding := _get_embedding.
Definition _aget_query_embedding := _aget_embedding.
Definition _aget_text_embedding := _aget_embedding.

End Embeddings.

(** ** core/config.py *)

Module Config.

Definition CLAUDE_MODEL_ID : string := "anthropic.claude-3-sonnet-20240229-v1:0".
Definition CLAUDE_35_MODEL_ID : string := "anthropic.claude-3-5-sonnet-20240620-v1:0".
Definition TITAN_EMBEDDING_MODEL_V1 : string := "amazon.titan-embed-text-v1".
Definition TITAN_EMBEDDING_MODEL_V2 : string := "amazon.titan-embed-text-v2:0".
Definition DEFAULT_TOP_K : Z := 3.
Definition DEFAULT_CHUNK_SIZE : Z := 512.
Definition DEFAULT_CHUNK_OVERLAP : Z := 20.

Definition get_model_config (model_type : string) : outcome pyval :=
  if String.eqb model_type "claude" then
    Returns (PDict [("model_id", PStr CLAUDE_MODEL_ID);
                    ("max_tokens", PInt 5000);
                    ("temperature", PFloat (1 # 10));
                    ("top_p", PFloat (9 # 10))])
  else if String.eqb model_type "claude_35" then
    Returns (PDict [("model_id", PStr CLAUDE_35_MODEL_ID);
                    ("max_tokens", PInt 5000);
                    ("temperature", PFloat (1 # 10));
                    ("top_p", PFloat (9 # 10))])
  else if String.eqb model_type "titan_embedding" then
    Returns (PDict [("model_id", PStr TITAN_EMBEDDING_MODEL_V1);
                    ("dimensions", PInt 1536)])
  else Raises (MkExc ValueError ("Unknown model type: " ++ model_type)).

End Config.

(** ** [repr] of a string *)

Module PyRepr.

Definition dquote_char : ascii := ascii_of_nat 34.
Definition dquote : string := String dquote_char EmptyString.

(** A backslash before every backslash and every quote [q]. *)
Fixpoint escape (q : ascii) (s : string) : string :=
  match s with
  | EmptyString => EmptyString
  | String c s' =>
      if Ascii.eqb c "\" || Ascii.eqb c q
      then String "\" (String c (escape q s'))
      else String c (escape q s')
  end.

(** [repr(s)] for a string of printable characters: in double quotes
    when it holds a single quote and no double quote, in single quotes
    otherwise.  It is also [str(KeyError(s))], which shows the argument
    of the exception by its [repr]. *)
Definition py_repr (s : string) : string :=
  if str_contains "'" s && negb (str_contains dquote s)
  then dquote ++ escape dquote_char s ++ dquote
  else "'" ++ escape "'" s ++ "'".

End PyRepr.

Export PyRepr.

(** ** core/claude_model.py *)

Module ClaudeModel.

(** The object after [__init__].  [brt] stands for the two statements of
    the first [try] block, [invoke_model] and [json.loads] of the body
    read from the response: the decoded body, or the exception raised. *)
Record ClaudeModel : Type := {
  brt : pyval -> string -> outcome pyval;
  modelId : string
}.

Definition default_temperature : Q := 1 # 10.
Definition default_ai_role : string := "You are a helpful assistant.".

(** The dict handed to [json.dumps]. *)
Definition request_body (prompt_text : string) (temperature : Q) (ai_role : string)
  : pyval :=
  PDict [("messages",
          PList [PDict [("role", PStr "assistant"); ("content", PStr ai_role)];
                 PDict [("role", PStr "user");
                        ("content",
                         PList [PDict [("type", PStr "text");
                                       ("text", PStr prompt_text)]])]]);
         ("max_tokens", PInt 5000);
         ("temperature", PFloat temperature);
         ("top_p", PFloat (9 # 10));
         ("anthropic_version", PStr "bedrock-2023-05-31")].

(** First [try] block with its two [except] clauses; any other
    exception propagates unchanged. *)
Definition invoke (self : ClaudeModel) (body : pyval) : outcome pyval :=
  try_except (brt self body (modelId self))
    (fun error =>
       if isinstance error BotoCoreError || isinstance error ClientError then
         Raises (MkExc RuntimeError ("Failed to invoke model: " ++ exc_str error))
       else if isinstance error JSONDecodeError then
         Raises (MkExc ValueError ("Failed to parse response body: " ++ exc_str error))
       else Raises error).

(** Body of the second [try] block. *)
Definition extract (response_body : pyval) : outcome pydict :=
  content <- response_body.["content"] ;;
  first <- py_getitem content (KInt 0) ;;
  text <- first.["text"] ;;
  usage <- response_body.["usage"] ;;
  prompt_tokens <- usage.["input_tokens"] ;;
  response_tokens <- usage.["output_tokens"] ;;
  total_tokens <- py_add prompt_tokens response_tokens ;;
  Returns [("text", text);
           ("prompt_tokens", prompt_tokens);
           ("response_tokens", response_tokens);
           ("total_tokens", total_tokens)].

Definition generate_response (self : ClaudeModel) (prompt_text : string)
    (temperature : Q) (ai_role : string) : outcome pydict :=
  let body := request_body prompt_text temperature ai_role in
  response_body <- invoke self body ;;
  try_except (extract response_body)
    (fun error =>
       if isinstance error KeyError then
         Raises (MkExc KeyError
                   (py_repr ("Missing expected key in response body: "
                             ++ exc_str error)))
       else Raises error).

End ClaudeModel.

(** ** core/utils.py *)

Module Utils.

(** [truncate_text(text, max_length=150)], for a non-negative length. *)
Definition truncate_text (text : string) (max_length : nat) : string :=
  if (String.length text <=? max_length)%nat then text
  else str_take max_length text ++ "...".

End Utils.

(** ** core/rag_system.py *)

Module RAG.

(** A retrieved node as [query_documents] reads it.  LlamaIndex declares
    the score optional. *)
Record node_with_score : Type := {
  node_id : string;
  score : option Q;
  text : string
}.

(** What the query engine answers: [str(response)] and its source nodes. *)
Record response : Type := {
  response_str : string;
  source_nodes : list node_with_score
}.

(** LlamaIndex and the model setup, as far as [RAGSystem] calls them.
    [load_data] stands for lines 80-95 of [load_documents]: the directory
    check and [SimpleDirectoryReader(...).load_data()]. *)
Record llama_index : Type := {
  document : Type;
  vector_index : Type;
  engine : Type;
  setup_models : string -> outcome unit;
  load_data : string -> outcome (list document);
  from_documents : list document -> outcome vector_index;
  as_query_engine : vector_index -> Z -> outcome engine;
  engine_query : engine -> string -> outcome response
}.

(** The methods of the pipeline, to record which of them were entered. *)
Inductive call : Type :=
| CallLoadDocuments
| CallCreateIndex
| CallCreateQueryEngine.

Section WithLlamaIndex.

Variable L : llama_index.

(** The attributes of a [RAGSystem] object; [calls] is a ghost field
    listing the pipeline methods entered so far, oldest first. *)
Record RAGSystem : Type := {
  data_directory : string;
  aws_region : string;
  documents : list (document L);
  index : option (vector_index L);
  query_engine : option (engine L);
  calls : list call
}.

Definition entered (c : call) (self : RAGSystem) : RAGSystem :=
  {| data_directory := data_directory self; aws_region := aws_region self;
     documents := documents self; index := index self;
     query_engine := query_engine self; calls := calls self ++ [c] |}.

Definition set_documents (d : list (document L)) (self : RAGSystem) : RAGSystem :=
  {| data_directory := data_directory self; aws_region := aws_region self;
     documents := d; index := index self;
     query_engine := query_engine self; calls := calls self |}.

Definition set_index (i : option (vector_index L)) (self : RAGSystem) : RAGSystem :=
  {| data_directory := data_directory self; aws_region := aws_region self;
     documents := documents self; index := i;
     query_engine := query_engine self; calls := calls self |}.

Definition set_query_engine (q : option (engine L)) (self : RAGSystem) : RAGSystem :=
  {| data_directory := data_directory self; aws_region := aws_region self;
     documents := documents self; index := index self;
     query_engine := q; calls := calls self |}.

Definition __init__ (data_directory aws_region : string) : outcome RAGSystem :=
  _ <- setup_models L aws_region ;;
  Returns {| data_directory := data_directory; aws_region := aws_region;
             documents := []; index := None; query_engine := None;
             calls := [] |}.

Definition load_documents (self : RAGSystem) : bool * RAGSystem :=
  let self := entered CallLoadDocuments self in
  match load_data L (data_directory self) with
  | Returns docs =>
      let self := set_documents docs self in
      match documents self with
      | [] => (false, self)
      | _ :: _ => (true, self)
      end
  | Raises e => (false, set_documents [] self)
  end.

Definition create_index (self : RAGSystem) : bool * RAGSystem :=
  let self := entered CallCreateIndex self in
  match documents self with
  | [] => (false, self)
  | _ :: _ =>
      match from_documents L (documents self) with
      | Returns ix => (true, set_index (Some ix) self)
      | Raises e => (false, set_index None self)
      end
  end.

Definition create_query_engine (self : RAGSystem) (similarity_top_k : Z)
  : bool * RAGSystem :=
  let self := entered CallCreateQueryEngine self in
  match index self with
  | None => (false, self)
  | Some ix =>
      match as_query_engine L ix similarity_top_k with
      | Returns qe => (true, set_query_engine (Some qe) self)
      | Raises e => (false, set_query_engine None self)
      end
  end.

(** [node.text[:150] + "..." if len(node.text) > 150 else node.text] *)
Definition text_preview (text : string) : string :=
  if (150 <? String.length text)%nat then str_take 150 text ++ "..." else text.

(** [round(node.score, 4)]; [None] has no [__round__]. *)
Definition round_score (s : option Q) : outcome pyval :=
  match s with
  | Some q => Returns (PFloat (py_round q 4))
  | None =>
      Raises (MkExc TypeError "type NoneType doesn't define __round__ method")
  end.

(** One iteration of the loop over [response.source_nodes]. *)
Definition source_entry (node : node_with_score) : outcome pyval :=
  rounded <- round_score (score node) ;;
  Returns (PDict [("node_id", PStr (node_id node));
                  ("score", rounded);
                  ("text_preview", PStr (text_preview (text node)));
                  ("full_text", PStr (text node))]).

Fixpoint collect_sources (nodes : list node_with_score) (sources : list pyval)
  : outcome (list pyval) :=
  match nodes with
  | [] => Returns sources
  | node :: rest =>
      entry <- source_entry node ;;
      collect_sources rest (sources ++ [entry])
  end.

Definition query_documents (self : RAGSystem) (user_input : string) (top_k : Z)
  : outcome pydict :=
  match query_engine self with
  | None =>
      Returns [("error", PStr "Query engine is not available. Please ensure documents are loaded and indexed.");
               ("response", PNone);
               ("sources", PList [])]
  | Some qe =>
      try_except
        (response <- engine_query L qe user_input ;;
         sources <- collect_sources (source_nodes response) [] ;;
         Returns [("error", PNone);
                  ("response", PStr (response_str response));
                  ("sources", PList sources);
                  ("query", PStr user_input);
                  ("num_sources", PInt (Z.of_nat (List.length sources)))])
        (fun e =>
           Returns [("error", PStr ("Error processing query: " ++ exc_str e));
                    ("response", PNone);
                    ("sources", PList []);
                    ("query", PStr user_input)])
  end.

Definition initialize_system (self : RAGSystem) : bool * RAGSystem :=
  let (loaded, self) := load_documents self in
  if negb loaded then (false, self) else
  let (indexed, self) := create_index self in
  if negb indexed then (false, self) else
  let (ready, self) := create_query_engine self 3 in
  if negb ready then (false, self) else
  (true, self).

End WithLlamaIndex.

Arguments data_directory {L} _.
Arguments aws_region {L} _.
Arguments documents {L} _.
Arguments index {L} _.
Arguments query_engine {L} _.
Arguments calls {L} _.

End RAG.

(** ** frontend/streamlit_app.py *)

Module Frontend.

Import RAG ClaudeModel.

Section WithCollaborators.

Variable L : llama_index.
(** The constructor call [ClaudeModel()]: the object, or the exception
    of a missing [.env] file, missing credentials or a failed client. *)
Variable new_claude_model : outcome ClaudeModel.

(** The keys of [st.session_state] the chatbot uses.  [use_direct_claude]
    is absent until the sidebar has been drawn. *)
Record session_state : Type := {
  rag_system : option (RAGSystem L);
  claude_model : option ClaudeModel;
  rag_initialized : bool;
  use_direct_claude : option bool;
  top_k : option Z
}.

(** [StreamlitChatbot.__init__] on an empty session. *)
Definition new_session : session_state :=
  {| rag_system := None; claude_model := None; rag_initialized := false;
     use_direct_claude := None; top_k := None |}.

Definition initialize_rag_system (st : session_state)
    (data_dir aws_region : string) : bool * session_state :=
  match RAG.__init__ L data_dir aws_region with
  | Raises e => (false, st)
  | Returns sys =>
      let (success, sys) := initialize_system L sys in
      let st := {| rag_system := Some sys; claude_model := claude_model st;
                   rag_initialized := rag_initialized st;
                   use_direct_claude := use_direct_claude st;
                   top_k := top_k st |} in
      if success then
        match new_claude_model with
        | Returns m =>
            (success,
             {| rag_system := rag_system st; claude_model := Some m;
                rag_initialized := rag_initialized st;
                use_direct_claude := use_direct_claude st;
                top_k := top_k st |})
        | Raises e => (success, st)
        end
      else (success, st)
  end.

(** The branch of [sidebar_config] taken when the initialize button is
    pressed. *)
Definition press_initialize (st : session_state)
    (data_dir aws_region : string) (k : Z) : session_state :=
  let (success, st) := initialize_rag_system st data_dir aws_region in
  if success then
    {| rag_system := rag_system st; claude_model := claude_model st;
       rag_initialized := true;
       use_direct_claude := use_direct_claude st; top_k := Some k |}
  else
    {| rag_system := rag_system st; claude_model := claude_model st;
       rag_initialized := false;
       use_direct_claude := use_direct_claude st; top_k := top_k st |}.

(** The checkbox of [sidebar_config]. *)
Definition set_use_direct_claude (st : session_state) (checked : bool)
  : session_state :=
  {| rag_system := rag_system st; claude_model := claude_model st;
     rag_initialized := rag_initialized st;
     use_direct_claude := Some checked; top_k := top_k st |}.

(** The error dict that [get_response] writes out in four places. *)
Definition error_result (message query : string) : pydict :=
  [("error", PStr message);
   ("response", PNone);
   ("sources", PList []);
   ("query", PStr query)].

Definition get_response (st : session_state) (query : string) (k : Z)
  : outcome pydict :=
  match use_direct_claude st with
  | Some true =>
      match claude_model st with
      | Some model =>
          try_except
            (result <- generate_response model query default_temperature
                         default_ai_role ;;
             text <- (PDict result).["text"] ;;
             Returns [("error", PNone);
                      ("response", text);
                      ("sources", PList []);
                      ("query", PStr query);
                      ("num_sources", PInt 0)])
            (fun e => Returns (error_result ("Claude model error: " ++ exc_str e) query))
      | None => Returns (error_result "Claude model not initialized" query)
      end
  | _ =>
      match rag_system st, rag_initialized st with
      | Some sys, true =>
          try_except (query_documents L sys query k)
            (fun e => Returns (error_result ("RAG query error: " ++ exc_str e) query))
      | _, _ =>
          Returns (error_result
                     "RAG system not initialized. Please initialize it first using the sidebar."
                     query)
      end
  end.

End WithCollaborators.

Arguments rag_system {L} _.
Arguments claude_model {L} _.
Arguments rag_initialized {L} _.
Arguments use_direct_claude {L} _.
Arguments top_k {L} _.

End Frontend.

(** ** Concrete collaborators, used to run the embedding on examples *)

Module Scenario.

Import Embeddings RAG ClaudeModel Frontend.

(** A Bedrock client whose every call is throttled. *)
Definition throttled : pyval -> string -> outcome pyval :=
  fun _ _ => Raises (MkExc ClientError "ThrottlingException").

(** A Bedrock client that answers without the [embedding] key. *)
Definition answers_without_embedding : pyval -> string -> outcome pyval :=
  fun _ _ => Returns (PDict [("message", PStr "ok")]).

(** A standard output that takes every line. *)
Definition accepts_all : string -> outcome unit := fun _ => Returns tt.

(** A standard output with the encoding ascii: writing a line with a
    character beyond code 127 raises [UnicodeEncodeError]. *)
Definition ascii_only : string -> outcome unit :=
  fun line =>
    if forallb (fun c => (nat_of_ascii c <? 128)%nat) (list_ascii_of_string line)
    then Returns tt
    else Raises (MkExc OtherException
                   "'ascii' codec can't encode character: ordinal not in range(128)").

(** The text model v1 behind a throttled client, printing to a standard
    output with the encoding ascii. *)
Definition titan_ascii : CustomTitanEmbedding :=
  {| model_name := Config.TITAN_EMBEDDING_MODEL_V1;
     _client := throttled; _asession := throttled;
     _stdout := ascii_only |}.

Definition titan_v1 : CustomTitanEmbedding :=
  {| model_name := Config.TITAN_EMBEDDING_MODEL_V1;
     _client := throttled; _asession := answers_without_embedding;
     _stdout := accepts_all |}.

Definition titan_v2 : CustomTitanEmbedding :=
  {| model_name := Config.TITAN_EMBEDDING_MODEL_V2;
     _client := answers_without_embedding; _asession := throttled;
     _stdout := accepts_all |}.

Definition long_text : string :=
  "AWS Bedrock provides access to powerful foundation models. " ++
  "It contains information about AI and machine learning. " ++
  "This is a sample document for the LlamaIndex RAG system. " ++
  "Authorised Dealers report every cross-border payment.".

Definition sample_nodes : list node_with_score :=
  [ {| node_id := "n1"; score := Some (8123456 # 10000000);
       text := "AWS Bedrock provides foundation models." |};
    {| node_id := "n2"; score := Some (1 # 3); text := long_text |} ].

(** A directory [./data] with one PDF, an empty directory [./empty];
    any other directory cannot be read. *)
Definition library : llama_index :=
  {| document := string;
     vector_index := list string;
     engine := list string;
     setup_models := fun _ => Returns tt;
     load_data := fun dir =>
       if String.eqb dir "./data" then Returns ["manual.pdf"]
       else if String.eqb dir "./empty" then Returns []
       else Raises (MkExc OtherException "permission denied");
     from_documents := fun docs => Returns docs;
     as_query_engine := fun ix _ => Returns ix;
     engine_query := fun _ _ =>
       Returns {| response_str := "Bedrock is a managed service.";
                  source_nodes := sample_nodes |} |}.

Definition claude_answer : pyval :=
  PDict [("content", PList [PDict [("type", PStr "text");
                                   ("text", PStr "Hello.")]]);
         ("usage", PDict [("input_tokens", PInt 12);
                          ("output_tokens", PInt 30)])].

Definition claude_answer_without_usage : pyval :=
  PDict [("content", PList [PDict [("type", PStr "text");
                                   ("text", PStr "Hello.")]])].

Definition claude_ok : ClaudeModel :=
  {| brt := fun _ _ => Returns claude_answer;
     modelId := Config.CLAUDE_MODEL_ID |}.

Definition claude_without_usage : ClaudeModel :=
  {| brt := fun _ _ => Returns claude_answer_without_usage;
     modelId := Config.CLAUDE_MODEL_ID |}.

(** An answer with an empty content list and nothing else. *)
Definition claude_answer_empty_content : pyval :=
  PDict [("content", PList [])].

Definition claude_empty_content : ClaudeModel :=
  {| brt := fun _ _ => Returns claude_answer_empty_content;
     modelId := Config.CLAUDE_MODEL_ID |}.

Definition claude_unreachable : ClaudeModel :=
  {| brt := fun _ _ => Raises (MkExc BotoCoreError "EndpointConnectionError");
     modelId := Config.CLAUDE_MODEL_ID |}.

(** A [RAGSystem] object right after construction. *)
Definition fresh (dir : string) : RAGSystem library :=
  {| data_directory := dir; aws_region := "eu-central-1";
     documents := []; index := None; query_engine := None; calls := [] |}.

(** The pipeline after a successful run on [./data], and what it
    answers. *)
Definition ready : RAGSystem library :=
  snd (initialize_system library (fresh "./data")).

Definition answer : pydict :=
  match query_documents library ready "What is AWS Bedrock?" 3 with
  | Returns result => result
  | Raises _ => []
  end.

Definition claude_result : pydict :=
  match generate_response claude_ok "What is AWS Bedrock?"
          default_temperature default_ai_role with
  | Returns result => result
  | Raises _ => []
  end.

(** A session in which the initialize button was pressed on the empty
    directory and the direct-Claude box was ticked afterwards. *)
Definition session_without_documents : session_state library :=
  set_use_direct_claude library
    (press_initialize library (Returns claude_ok)
       (new_session library) "./empty" "eu-central-1" 3)
    true.

(** The same after a successful run on [./data]. *)
Definition session_ready : session_state library :=
  set_use_direct_claude library
    (press_initialize library (Returns claude_ok)
       (new_session library) "./data" "eu-central-1" 3)
    true.

End Scenario.

(** ** The vocabulary of the specification *)

Module Spec.

Import Embeddings RAG ClaudeModel Frontend.

(** The client call raised, or the decoded body has no usable
    [embedding] entry. *)
Definition backend_fails (client : pyval -> string -> outcome pyval)
    (self : CustomTitanEmbedding) (text : string) : Prop :=
  (exists e, client (Embeddings.request_body self text) (model_name self) = Raises e)
  \/ (exists body e,
        client (Embeddings.request_body self text) (model_name self) = Returns body
        /\ body.["embedding"] = Raises e).

(** The handler of the embedding catches [e]: the call raised it, or the
    read of [embedding] in the decoded body did. *)
Definition caught (client : pyval -> string -> outcome pyval)
    (self : CustomTitanEmbedding) (text : string) (e : pyexc) : Prop :=
  client (Embeddings.request_body self text) (model_name self) = Raises e
  \/ (exists body,
        client (Embeddings.request_body self text) (model_name self) = Returns body
        /\ body.["embedding"] = Raises e).

(** The dimension expected for a model name. *)
Definition expected_dimension (name : string) : nat :=
  if str_contains "v1" name then 1536%nat else 1024%nat.

Definition zero_vector_of (n : nat) (v : pyval) : Prop :=
  exists components,
    v = PList components
    /\ List.length components = n
    /\ Forall (fun c => c = PFloat 0) components.

(** The paths of [_get_embedding] and [_aget_embedding]: the embedding
    of the decoded body; or, after a failure of the backend, the warning
    is printed and the answer is the zero vector, unless printing
    raises, which is then what the call raises. *)
Definition embedding_paths (client : pyval -> string -> outcome pyval)
    (warning : string -> pyexc -> string)
    (self : CustomTitanEmbedding) (text : string) (answer : outcome pyval)
  : Prop :=
  (exists body v,
      client (Embeddings.request_body self text) (model_name self) = Returns body
      /\ body.["embedding"] = Returns v
      /\ answer = Returns v)
  \/ (exists e,
        caught client self text e
        /\ ((_stdout self (warning text e) = Returns tt
             /\ exists v, answer = Returns v
                          /\ zero_vector_of (expected_dimension (model_name self)) v)
            \/ (exists e', _stdout self (warning text e) = Raises e'
                           /\ answer = Raises e'))).

(** A field of a result dict is null, or holds a string. *)
Definition is_null (d : pydict) (k : string) : Prop := dict_get k d = Some PNone.
Definition holds_str (d : pydict) (k : string) (s : string) : Prop :=
  dict_get k d = Some (PStr s).

(** The text of the first content block, [content[0].text]. *)
Definition content_text (response_body : pyval) : outcome pyval :=
  content <- response_body.["content"] ;;
  first <- py_getitem content (KInt 0) ;;
  first.["text"].

(** The decoded response exposes the three paths the client expects:
    [content[0].text], [usage.input_tokens] and [usage.output_tokens]. *)
Definition exposes_expected_fields (response_body : pyval) : Prop :=
  exists text input output,
    content_text response_body = Returns text
    /\ (usage <- response_body.["usage"] ;; usage.["input_tokens"])
       = Returns input
    /\ (usage <- response_body.["usage"] ;; usage.["output_tokens"])
       = Returns output.

(** A decoded response is missing an expected field when it does not
    expose all of them, for whatever reason: a key that is absent, a
    content list that is empty, a value that is not an object. *)
Definition lacks_expected_field (response_body : pyval) : Prop :=
  ~ exposes_expected_fields response_body.

(** [missing_field body key], the case of an absent key: the decoded
    response is an object in which the first read that fails is the
    lookup of [key]. *)
Inductive missing_field : pyval -> string -> Prop :=
| missing_content d :
    dict_get "content" d = None ->
    missing_field (PDict d) "content"
| missing_text d content first :
    dict_get "content" d = Some content ->
    py_getitem content (KInt 0) = Returns (PDict first) ->
    dict_get "text" first = None ->
    missing_field (PDict d) "text"
| missing_usage d text :
    content_text (PDict d) = Returns text ->
    dict_get "usage" d = None ->
    missing_field (PDict d) "usage"
| missing_input_tokens d text usage :
    content_text (PDict d) = Returns text ->
    dict_get "usage" d = Some (PDict usage) ->
    dict_get "input_tokens" usage = None ->
    missing_field (PDict d) "input_tokens"
| missing_output_tokens d text usage input :
    content_text (PDict d) = Returns text ->
    dict_get "usage" d = Some (PDict usage) ->
    dict_get "input_tokens" usage = Some input ->
    dict_get "output_tokens" usage = None ->
    missing_field (PDict d) "output_tokens".

(** A failure of the call itself, as [generate_response] recognises it. *)
Definition transport_error (e : pyexc) : Prop :=
  exc_cls e = BotoCoreError \/ exc_cls e = ClientError.

(** The request carries the role instruction in its first message and
    the user prompt as the text of its second. *)
Definition carries_role_and_prompt (body : pyval) (ai_role prompt_text : string)
  : Prop :=
  (messages <- body.["messages"] ;;
   first <- py_getitem messages (KInt 0) ;;
   first.["content"]) = Returns (PStr ai_role)
  /\ (messages <- body.["messages"] ;;
      second <- py_getitem messages (KInt 1) ;;
      role <- second.["role"] ;;
      content <- second.["content"] ;;
      part <- py_getitem content (KInt 0) ;;
      text <- part.["text"] ;;
      Returns (role, text)) = Returns (PStr "user", PStr prompt_text).

(** The generation parameters of the request are those of the
    configuration object. *)
Definition sourced_from_configuration (body : pyval) : Prop :=
  exists cfg,
    Config.get_model_config "claude" = Returns cfg
    /\ body.["max_tokens"] = cfg.["max_tokens"]
    /\ body.["top_p"] = cfg.["top_p"]
    /\ body.["temperature"] = cfg.["temperature"].

(** [v] is the float with four decimal places that is nearest to [x]. *)
Definition rounded_to_4_places (x : Q) (v : pyval) : Prop :=
  exists n : Z,
    v = PFloat (n # 10000) /\ (Qabs ((n # 10000) - x) <= 1 # 20000)%Q.

(** The first [n] characters of a text. *)
Definition first_chars (n : nat) (s : string) : string :=
  string_of_list_ascii (firstn n (list_ascii_of_string s)).

(** The preview of a source text: the text itself up to 150 characters,
    its first 150 characters and an ellipsis beyond. *)
Definition preview_of (text : string) : string :=
  if (String.length text <=? 150)%nat then text
  else (first_chars 150 text ++ "...")%string.

(** A call at the query boundary succeeds: it returns a result whose
    error is null. *)
Definition succeeds (answer : outcome pydict) : Prop :=
  exists result, answer = Returns result /\ is_null result "error".

End Spec.

Import Spec.

(** ** Further operations of Python *)

Module PyMore.

(** Truth value of an object, as [if], [not], [all] and [or] test it. *)
Definition py_truthy (v : pyval) : bool :=
  match v with
  | PNone => false
  | PBool b => b
  | PInt z => negb (z =? 0)
  | PFloat q => negb (Qeq_bool q 0)
  | PStr s => negb (String.eqb s "")
  | PList l => match l with [] => false | _ :: _ => true end
  | PDict d => match d with [] => false | _ :: _ => true end
  end.

(** [len(obj)] *)
Definition py_len (v : pyval) : outcome Z :=
  match v with
  | PStr s => Returns (Z.of_nat (String.length s))
  | PList l => Returns (Z.of_nat (List.length l))
  | PDict d => Returns (Z.of_nat (List.length d))
  | _ => Raises (MkExc TypeError "object has no len()")
  end.

(** [os.environ]: the variables that are set. *)
Definition environ : Type := string -> option string.

(** [os.getenv(name)] and [os.environ.get(name)] *)
Definition getenv (env : environ) (name : string) : pyval :=
  match env name with
  | Some s => PStr s
  | None => PNone
  end.

(** [c.lower()] for a character of the ASCII range. *)
Definition lower_char (c : ascii) : ascii :=
  let n := nat_of_ascii c in
  if ((65 <=? n) && (n <=? 90))%nat then ascii_of_nat (n + 32) else c.

(** [s.lower()] *)
Fixpoint str_lower (s : string) : string :=
  match s with
  | EmptyString => EmptyString
  | String c s' => String (lower_char c) (str_lower s')
  end.

(** [s.endswith(suffix)] *)
Definition str_endswith (s suffix : string) : bool :=
  let n := String.length s in
  let m := String.length suffix in
  if (m <=? n)%nat then String.eqb (String.substring (n - m) m s) suffix
  else false.

(** [s.replace(old, new)] for a non-empty [old]: occurrences are taken
    from the left and do not overlap; [skip] counts the characters of
    the occurrence just replaced that are still to be passed over. *)
Fixpoint replace_from (old new s : string) (skip : nat) : string :=
  match s with
  | EmptyString => EmptyString
  | String c s' =>
      match skip with
      | S k => replace_from old new s' k
      | O =>
          if String.prefix old s
          then new ++ replace_from old new s' (String.length old - 1)
          else String c (replace_from old new s' 0)
      end
  end.

(** [s.replace("", new)]: [new] before every character and at the end. *)
Fixpoint intersperse (new s : string) : string :=
  match s with
  | EmptyString => new
  | String c s' => new ++ String c (intersperse new s')
  end.

(** [s.replace(old, new)] *)
Definition str_replace (s old new : string) : string :=
  if String.eqb old "" then intersperse new s else replace_from old new s 0.

(** [sorted(names)] on strings: ascending by code points, stable. *)
Fixpoint insert_sorted (x : string) (l : list string) : list string :=
  match l with
  | [] => [x]
  | y :: l' => if String.leb x y then x :: l else y :: insert_sorted x l'
  end.

Definition sorted (l : list string) : list string :=
  fold_right insert_sorted [] l.

End PyMore.

Export PyMore.

(** ** core/config.py: credentials *)

Module Credentials.

Definition get_aws_credentials (env : environ) : pydict :=
  [("aws_access_key_id", getenv env "aws_access_key_id");
   ("aws_secret_access_key", getenv env "aws_secret_access_key");
   ("aws_session_token", getenv env "aws_session_token")].

(** [all(creds.values())] *)
Definition validate_credentials (env : environ) : bool :=
  let creds := get_aws_credentials env in
  forallb py_truthy (map snd creds).

End Credentials.

(** ** core/claude_model.py: the constructor *)

Module ClaudeInit.

Import ClaudeModel.

(** [ClaudeModel.__init__].  [dotenv_path] is what [find_dotenv()]
    returned, [env] the environment once [load_dotenv] has run, and
    [boto3_client] the call [boto3.client(...)] on its keyword
    arguments. *)
Definition __init__ (dotenv_path : string) (env : environ)
    (boto3_client : pydict -> outcome (pyval -> string -> outcome pyval))
  : outcome ClaudeModel :=
  if negb (py_truthy (PStr dotenv_path)) then
    Raises (MkExc FileNotFoundError "Could not find .env file")
  else
    let aws_access_key_id := getenv env "aws_access_key_id" in
    let aws_secret_access_key := getenv env "aws_secret_access_key" in
    let aws_session_token := getenv env "aws_session_token" in
    if negb (forallb py_truthy
               [aws_access_key_id; aws_secret_access_key; aws_session_token])
    then
      Raises (MkExc ValueError
                "One or more AWS credentials are missing in the .env file")
    else
      client <-
        try_except
          (boto3_client [("service_name", PStr "bedrock-runtime");
                         ("region_name", PStr "eu-central-1");
                         ("aws_access_key_id", aws_access_key_id);
                         ("aws_secret_access_key", aws_secret_access_key);
                         ("aws_session_token", aws_session_token)])
          (fun error =>
             if isinstance error BotoCoreError || isinstance error ClientError
             then Raises (MkExc ConnectionError
                            ("Failed to create boto3 client: " ++ exc_str error))
             else Raises error) ;;
      Returns {| brt := client;
                 modelId := "anthropic.claude-3-sonnet-20240229-v1:0" |}.

End ClaudeInit.

(** ** core/embeddings.py: construction *)

Module EmbeddingSetup.

Import Embeddings.

(** [a or b] on optional strings. *)
Definition or_else (a b : option string) : option string :=
  match a with
  | Some s => if py_truthy (PStr s) then a else b
  | None => b
  end.

Definition opt_val (o : option string) : pyval :=
  match o with
  | Some s => PStr s
  | None => PNone
  end.

Definition is_not_none (v : pyval) : bool :=
  match v with PNone => false | _ => true end.

(** The credentials [__init__] stores: an argument, or else the
    environment variable of the same name. *)
Definition resolve (env : environ) (name : string) (arg : option string)
  : option string :=
  or_else arg (env name).

(** [session_kwargs] of [_setup_clients], once the entries that are
    [None] have been removed. *)
Definition session_kwargs (env : environ)
    (region_name aws_access_key_id aws_secret_access_key aws_session_token
       : option string) : pydict :=
  let session_kwargs :=
    [("region_name", opt_val region_name);
     ("aws_access_key_id",
      opt_val (resolve env "aws_access_key_id" aws_access_key_id));
     ("aws_secret_access_key",
      opt_val (resolve env "aws_secret_access_key" aws_secret_access_key));
     ("aws_session_token",
      opt_val (resolve env "aws_session_token" aws_session_token))] in
  filter (fun kv => is_not_none (snd kv)) session_kwargs.

(** What [setup_custom_embedding] returns: the custom model, or the
    [BedrockEmbedding] of LlamaIndex. *)
Inductive embed_model (B : Type) : Type :=
| Custom (m : CustomTitanEmbedding)
| Standard (b : B).
Arguments Custom {B} m.
Arguments Standard {B} b.

Section Setup.

(** The type of LlamaIndex's [BedrockEmbedding] and its constructor on
    keyword arguments. *)
Variable B : Type.
Variable new_bedrock_embedding : pydict -> outcome B.
(** The constructor call [CustomTitanEmbedding()]. *)
Variable new_custom_embedding : outcome CustomTitanEmbedding.

Definition setup_custom_embedding (env : environ) : outcome (embed_model B) :=
  try_except
    (embed_model <- new_custom_embedding ;;
     test_embedding <- _get_embedding embed_model "This is a test sentence." ;;
     _ <- py_len test_embedding ;;
     Returns (Custom embed_model))
    (fun e =>
       try_except
         (embed_model <-
            new_bedrock_embedding
              [("model_name", PStr "amazon.titan-embed-text-v1");
               ("region_name", PStr "eu-central-1");
               ("aws_access_key_id", getenv env "aws_access_key_id");
               ("aws_secret_access_key", getenv env "aws_secret_access_key");
               ("aws_session_token", getenv env "aws_session_token")] ;;
          Returns (Standard embed_model))
         (fun fallback_error =>
            Raises (MkExc RuntimeError
                      "Both custom and fallback embedding models failed to initialize"))).

End Setup.

End EmbeddingSetup.

(** ** core/utils.py: files, sizes, highlighting *)

Module Files.

(** The functions of [os] and [os.path] the utilities call.  [listdir]
    and [getsize] can raise [OSError]; the tests of [os.path] cannot. *)
Record os_module : Type := {
  path_isdir : string -> bool;
  path_isfile : string -> bool;
  path_exists : string -> bool;
  path_join : string -> string -> string;
  path_splitext : string -> string * string;
  listdir : string -> outcome (list string);
  getsize : string -> outcome Z;
  makedirs : string -> outcome unit
}.

Section WithOs.

Variable os : os_module.

Definition check_file_exists (file_path : string) : bool := path_isfile os file_path.

Definition check_directory_exists (dir_path : string) : bool := path_isdir os dir_path.

Definition create_directory_if_not_exists (dir_path : string) : outcome bool :=
  try_except
    (if negb (path_exists os dir_path) then
       _ <- makedirs os dir_path ;; Returns true
     else Returns true)
    (fun e => Returns false).

(** [any(filename.lower().endswith(ext.lower()) for ext in extensions)] *)
Definition any_extension (filename : string) (extensions : list string) : bool :=
  existsb (fun ext => str_endswith (str_lower filename) (str_lower ext)) extensions.

(** The loop of [get_file_list] over the names of the directory. *)
Fixpoint get_file_list_loop (directory : string) (extensions : option (list string))
    (names : list string) (files : list string) : list string :=
  match names with
  | [] => files
  | filename :: rest =>
      let file_path := path_join os directory filename in
      let files :=
        if path_isfile os file_path then
          match extensions with
          | None => (files ++ [filename])%list
          | Some exts =>
              if any_extension filename exts then (files ++ [filename])%list else files
          end
        else files in
      get_file_list_loop directory extensions rest files
  end.

Definition get_file_list (directory : string) (extensions : option (list string))
  : outcome (list string) :=
  if negb (check_directory_exists directory) then Returns []
  else
    names <- listdir os directory ;;
    Returns (sorted (get_file_list_loop directory extensions names [])).

End WithOs.

Definition size_names : list string := ["B"; "KB"; "MB"; "GB"].

(** The [while] loop of [format_file_size]; it ends by itself after at
    most three rounds, [fuel] only bounds the recursion. *)
Fixpoint scale_loop (fuel : nat) (size_bytes : Q) (i : nat) : Q * nat :=
  match fuel with
  | O => (size_bytes, i)
  | S fuel' =>
      if Qle_bool 1024 size_bytes && (i <? List.length size_names - 1)%nat
      then scale_loop fuel' (size_bytes / 1024) (S i)
      else (size_bytes, i)
  end.

(** [f"{x:.1f}"]: one decimal, ties to even. *)
Definition format_1f (x : Q) : string :=
  let tenths := round_half_even (Qabs x * 10) in
  (if Qlt_le_dec x 0 then "-" else "")
  ++ str_of_int (tenths / 10) ++ "." ++ digit_char (tenths mod 10).

Definition format_file_size (size_bytes : Z) : string :=
  if size_bytes =? 0 then "0B"
  else
    let (size, i) := scale_loop (List.length size_names) (inject_Z size_bytes) 0 in
    format_1f size ++ nth i size_names "".

(** [file_types.get(key, default)] and [file_types[key] = value] on the
    dict of counts. *)
Fixpoint counts_get (key : string) (d : list (string * Z)) (default : Z) : Z :=
  match d with
  | [] => default
  | (k, v) :: d' => if String.eqb key k then v else counts_get key d' default
  end.

Fixpoint counts_set (key : string) (value : Z) (d : list (string * Z))
  : list (string * Z) :=
  match d with
  | [] => [(key, value)]
  | (k, v) :: d' =>
      if String.eqb key k then (k, value) :: d' else (k, v) :: counts_set key value d'
  end.

Section Stats.

Variable os : os_module.

(** The loop of [get_directory_stats] over the names of the directory. *)
Fixpoint stats_loop (directory : string) (names : list string)
    (file_count total_size : Z) (file_types : list (string * Z))
  : outcome (Z * Z * list (string * Z)) :=
  match names with
  | [] => Returns (file_count, total_size, file_types)
  | filename :: rest =>
      let file_path := path_join os directory filename in
      if path_isfile os file_path then
        let file_count := file_count + 1 in
        file_size <- getsize os file_path ;;
        let total_size := total_size + file_size in
        let ext := str_lower (snd (path_splitext os filename)) in
        let file_types :=
          if py_truthy (PStr ext)
          then counts_set ext (counts_get ext file_types 0 + 1) file_types
          else counts_set "no_extension"
                 (counts_get "no_extension" file_types 0 + 1) file_types in
        stats_loop directory rest file_count total_size file_types
      else stats_loop directory rest file_count total_size file_types
  end.

Definition counts_dict (file_types : list (string * Z)) : pyval :=
  PDict (map (fun kv => (fst kv, PInt (snd kv))) file_types).

Definition get_directory_stats (directory : string) : outcome pydict :=
  if negb (check_directory_exists os directory) then
    Returns [("exists", PBool false);
             ("file_count", PInt 0);
             ("total_size", PInt 0);
             ("file_types", PDict [])]
  else
    names <- listdir os directory ;;
    stats <- stats_loop directory names 0 0 [] ;;
    let '(file_count, total_size, file_types) := stats in
    Returns [("exists", PBool true);
             ("file_count", PInt file_count);
             ("total_size", PInt total_size);
             ("total_size_formatted", PStr (format_file_size total_size));
             ("file_types", counts_dict file_types)].

End Stats.

(** The loop of [highlight_search_terms]. *)
Fixpoint highlight_loop (text : string) (search_terms : list string)
    (highlighted_text : string) : string :=
  match search_terms with
  | [] => highlighted_text
  | term :: rest =>
      let highlighted_text :=
        if str_contains (str_lower term) (str_lower text)
        then str_replace highlighted_text term ("**" ++ term ++ "**")
        else highlighted_text in
      highlight_loop text rest highlighted_text
  end.

Definition highlight_search_terms (text : string) (search_terms : list string)
  : string :=
  highlight_loop text search_terms text.

(** [validate_environment]; the three booleans tell whether the imports
    of [dotenv], [boto3] and [llama_index.core] succeed. *)
Definition validate_environment (dotenv boto3 llama_index : bool) (env : environ)
  : pydict :=
  let aws_vars := ["aws_access_key_id"; "aws_secret_access_key";
                   "aws_session_token"] in
  [("dotenv_available", PBool dotenv);
   ("boto3_available", PBool boto3);
   ("llama_index_available", PBool llama_index);
   ("aws_credentials", PBool (forallb (fun var => py_truthy (getenv env var)) aws_vars))].

End Files.

(** ** frontend/streamlit_app.py: the sidebar, the chat and a script run *)

Module Chat.

Import RAG ClaudeModel Frontend.

(** What the widgets of the sidebar hold during one run of the script. *)
Record sidebar_input : Type := {
  data_dir : string;
  aws_region_choice : string;
  top_k_slider : Z;
  initialize_pressed : bool;
  use_direct_claude_checked : bool
}.

Section WithCollaborators.

Variable L : llama_index.
Variable new_claude_model : outcome ClaudeModel.
(** The interpolation [{value}] of an f-string. *)
Variable format_value : pyval -> string.

(** The session state with the chat history; the key [messages] is
    absent until the chat has been drawn once. *)
Record app_state : Type := {
  session : session_state L;
  messages : option (list pydict)
}.

(** [sidebar_config]: the new session, and whether [st.rerun()] ended
    the run.  [press_initialize] sets [rag_initialized] to the success
    of the initialisation, which is what the [if success] tests. *)
Definition sidebar_config (st : session_state L) (inp : sidebar_input)
  : session_state L * bool :=
  if initialize_pressed inp then
    let st := press_initialize L new_claude_model st (data_dir inp)
                (aws_region_choice inp) (top_k_slider inp) in
    if rag_initialized st then (st, true)
    else (set_use_direct_claude L st (use_direct_claude_checked inp), false)
  else (set_use_direct_claude L st (use_direct_claude_checked inp), false).

(** The assistant's turn for a result of [get_response]: the text shown
    and the sources kept. *)
Definition assistant_turn (response_data : pydict) : outcome (pyval * pyval) :=
  error <- (PDict response_data).["error"] ;;
  if py_truthy error then
    Returns (PStr ("❌ Error: " ++ format_value error), PList [])
  else
    response_text <- (PDict response_data).["response"] ;;
    Returns (response_text,
             match dict_get "sources" response_data with
             | Some sources => sources
             | None => PList []
             end).

(** [display_chat_interface] for the prompt the chat input holds.  The
    calls that draw messages and sources leave the state alone and are
    left out. *)
Definition display_chat_interface (app : app_state) (k : Z)
    (prompt : option string) : outcome app_state :=
  let history := match messages app with Some m => m | None => [] end in
  match prompt with
  | Some prompt =>
      if py_truthy (PStr prompt) then
        let history :=
          (history ++ [[("role", PStr "user"); ("content", PStr prompt)]])%list in
        response_data <- get_response L (session app) prompt k ;;
        turn <- assistant_turn response_data ;;
        let '(response_text, sources) := turn in
        Returns {| session := session app;
                   messages :=
                     Some (history ++
                           [[("role", PStr "assistant");
                             ("content", response_text);
                             ("sources", sources)]])%list |}
      else Returns {| session := session app; messages := Some history |}
  | None => Returns {| session := session app; messages := Some history |}
  end.

(** One run of the script: [run] with the widgets' values. *)
Definition run (app : app_state) (inp : sidebar_input) (prompt : option string)
    (clear_pressed : bool) : outcome app_state :=
  let (st, rerun) := sidebar_config (session app) inp in
  let app := {| session := st; messages := messages app |} in
  if rerun then Returns app
  else if negb (rag_initialized st) then Returns app
  else
    app <- display_chat_interface app (top_k_slider inp) prompt ;;
    if clear_pressed
    then Returns {| session := session app; messages := Some [] |}
    else Returns app.

(** The sessions the sidebar can produce from a new one. *)
Inductive reachable : session_state L -> Prop :=
| reachable_new : reachable (new_session L)
| reachable_press st data_dir aws_region k :
    reachable st ->
    reachable (press_initialize L new_claude_model st data_dir aws_region k)
| reachable_checkbox st checked :
    reachable st ->
    reachable (set_use_direct_claude L st checked).

End WithCollaborators.

Arguments session {L} _.
Arguments messages {L} _.

End Chat.

(** ** Further concrete collaborators *)

Module Fixtures.

Import Embeddings EmbeddingSetup Files Chat.

Definition env_full : environ :=
  fun name =>
    if String.eqb name "aws_access_key_id" then Some "AKIAEXAMPLE"
    else if String.eqb name "aws_secret_access_key" then Some "secret"
    else if String.eqb name "aws_session_token" then Some "token"
    else None.

(** The session token is set, but empty. *)
Definition env_empty_token : environ :=
  fun name =>
    if String.eqb name "aws_access_key_id" then Some "AKIAEXAMPLE"
    else if String.eqb name "aws_secret_access_key" then Some "secret"
    else if String.eqb name "aws_session_token" then Some ""
    else None.

Definition env_none : environ := fun _ => None.

(** A multimodal Titan model: its name contains "v1" and is not the
    name of the text model. *)
Definition titan_image : CustomTitanEmbedding :=
  {| model_name := "amazon.titan-embed-image-v1";
     _client := Scenario.throttled; _asession := Scenario.throttled;
     _stdout := Scenario.accepts_all |}.

(** A client that answers with a vector of three components. *)
Definition answers_with_embedding : pyval -> string -> outcome pyval :=
  fun _ _ =>
    Returns (PDict [("embedding", PList [PFloat (1 # 2); PFloat 0; PFloat (1 # 4)]);
                    ("inputTextTokenCount", PInt 5)]).

Definition titan_working : CustomTitanEmbedding :=
  {| model_name := Config.TITAN_EMBEDDING_MODEL_V1;
     _client := answers_with_embedding; _asession := answers_with_embedding;
     _stdout := Scenario.accepts_all |}.

(** A directory [./data] with two PDF files, a text file, a file without
    extension and a sub-directory. *)
Definition sizes : list (string * Z) :=
  [("./data/manual.PDF", 2048); ("./data/codes.pdf", 1536);
   ("./data/notes.txt", 10); ("./data/README", 0)].

Definition demo_os : os_module :=
  {| path_isdir := fun p => String.eqb p "./data" || String.eqb p "./data/archive";
     path_isfile := fun p => existsb (fun kv => String.eqb p (fst kv)) sizes;
     path_exists := fun p =>
       String.eqb p "./data" || String.eqb p "./data/archive"
       || existsb (fun kv => String.eqb p (fst kv)) sizes;
     path_join := fun d f => d ++ "/" ++ f;
     path_splitext := fun f =>
       if str_endswith f ".PDF" then ("manual", ".PDF")
       else if str_endswith f ".pdf" then ("codes", ".pdf")
       else if str_endswith f ".txt" then ("notes", ".txt")
       else (f, "");
     listdir := fun p =>
       if String.eqb p "./data"
       then Returns ["notes.txt"; "manual.PDF"; "archive"; "codes.pdf"; "README"]
       else Raises (MkExc OtherException "No such file or directory");
     getsize := fun p =>
       match find (fun kv => String.eqb p (fst kv)) sizes with
       | Some kv => Returns (snd kv)
       | None => Raises (MkExc OtherException "No such file or directory")
       end;
     makedirs := fun _ => Returns tt |}.

(** [str(value)] on the values the chat formats. *)
Definition demo_format (v : pyval) : string :=
  match v with
  | PStr s => s
  | PNone => "None"
  | _ => "?"
  end.

Definition pressed (dir : string) : sidebar_input :=
  {| data_dir := dir; aws_region_choice := "eu-central-1"; top_k_slider := 5;
     initialize_pressed := true; use_direct_claude_checked := false |}.

Definition idle (direct : bool) : sidebar_input :=
  {| data_dir := "./data"; aws_region_choice := "eu-central-1"; top_k_slider := 5;
     initialize_pressed := false; use_direct_claude_checked := direct |}.

Definition new_app : app_state Scenario.library :=
  {| session := Frontend.new_session Scenario.library; messages := None |}.

(** The application after a successful initialisation on [./data]. *)
Definition ready_app : app_state Scenario.library :=
  match run Scenario.library (Returns Scenario.claude_ok) demo_format
          new_app (pressed "./data") None false with
  | Returns app => app
  | Raises _ => new_app
  end.

(** The statistics of [./data]. *)
Definition data_stats : pydict :=
  match get_directory_stats demo_os "./data" with
  | Returns result => result
  | Raises _ => []
  end.

(** A library whose engine returns a node without score. *)
Definition library_unscored : RAG.llama_index :=
  {| RAG.document := string;
     RAG.vector_index := list string;
     RAG.engine := list string;
     RAG.setup_models := fun _ => Returns tt;
     RAG.load_data := fun _ => Returns ["manual.pdf"];
     RAG.from_documents := fun docs => Returns docs;
     RAG.as_query_engine := fun ix _ => Returns ix;
     RAG.engine_query := fun _ _ =>
       Returns {| RAG.response_str := "Bedrock is a managed service.";
                  RAG.source_nodes :=
                    [ {| RAG.node_id := "n1"; RAG.score := Some (1 # 2);
                         RAG.text := "AWS Bedrock provides foundation models." |};
                      {| RAG.node_id := "n2"; RAG.score := None;
                         RAG.text := "Authorised Dealers" |} ] |} |}.

Definition ready_unscored : RAG.RAGSystem library_unscored :=
  RAG.Build_RAGSystem library_unscored "./data" "eu-central-1"
    ["manual.pdf"] (Some ["manual.pdf"]) (Some ["manual.pdf"]) [].

End Fixtures.

(** * Properties *)

Local Open Scope list_scope.

Import Embeddings RAG ClaudeModel Frontend.

(** ** Embedding fallback *)

Lemma zero_vector_repeat n : zero_vector_of n (PList (repeat (PFloat 0) n)).
Proof.
  exists (repeat (PFloat 0) n). split; [reflexivity|]. split.
  - apply repeat_length.
  - apply Forall_forall. intros c Hc. now apply repeat_spec in Hc.
Qed.

Lemma backend_fails_caught client self text :
  backend_fails client self text <-> exists e, caught client self text e.
Proof.
  unfold backend_fails, caught. split.
  - intros [[e He] | (body & e & Hb & He)]; exists e; eauto.
  - intros (e & [He | (body & Hb & He)]); eauto.
Qed.

(** The handler at work: after a failure of the backend the answer is
    what printing the warning and returning the fallback give. *)
Lemma handler_on_failure client (self : CustomTitanEmbedding) text e
    (handler : pyexc -> outcome pyval) :
  caught client self text e ->
  try_except
    (response_body <- client (Embeddings.request_body self text) (model_name self) ;;
     embedding <- response_body.["embedding"] ;;
     Returns embedding)
    handler
  = handler e.
Proof.
  intros [He | (body & Hb & He)].
  - now rewrite He.
  - rewrite Hb. cbn [bind]. now rewrite He.
Qed.

(** C1: the handler prints before it returns the zero vector.  With a
    throttled client, a standard output of encoding ascii and a text
    that begins with an accented letter, [_get_embedding] and
    [_aget_embedding] raise the error of [print] and return no vector. *)
Theorem C1_fallback_raises_when_warning_cannot_be_printed :
  backend_fails (_client Scenario.titan_ascii) Scenario.titan_ascii
    "Résumé of the Currency and Exchanges Manual"
  /\ _get_embedding Scenario.titan_ascii
       "Résumé of the Currency and Exchanges Manual"
     = Raises (MkExc OtherException
                 "'ascii' codec can't encode character: ordinal not in range(128)")
  /\ _aget_embedding Scenario.titan_ascii
       "Résumé of the Currency and Exchanges Manual"
     = Raises (MkExc OtherException
                 "'ascii' codec can't encode character: ordinal not in range(128)").
Proof.
  split; [|split].
  - left. eexists. reflexivity.
  - reflexivity.
  - reflexivity.
Qed.

(** ** The initialisation sequence *)

Section Pipeline.

Context (L : llama_index).

Lemma load_documents_calls (self : RAGSystem L) :
  calls (snd (load_documents L self)) = calls self ++ [CallLoadDocuments].
Proof.
  unfold load_documents. cbn.
  destruct (load_data L (data_directory self)) as [[|d ds]|e]; reflexivity.
Qed.

Lemma load_documents_engine (self : RAGSystem L) :
  query_engine (snd (load_documents L self)) = query_engine self.
Proof.
  unfold load_documents. cbn.
  destruct (load_data L (data_directory self)) as [[|d ds]|e]; reflexivity.
Qed.

Lemma create_index_calls (self : RAGSystem L) :
  calls (snd (create_index L self)) = calls self ++ [CallCreateIndex].
Proof.
  unfold create_index. cbn.
  destruct (documents self) as [|d ds]; [reflexivity|].
  destruct (from_documents L (d :: ds)); reflexivity.
Qed.

Lemma create_index_engine (self : RAGSystem L) :
  query_engine (snd (create_index L self)) = query_engine self.
Proof.
  unfold create_index. cbn.
  destruct (documents self) as [|d ds]; [reflexivity|].
  destruct (from_documents L (d :: ds)); reflexivity.
Qed.

Lemma create_query_engine_failed (self : RAGSystem L) (k : Z) :
  fst (create_query_engine L self k) = false ->
  query_engine self = None ->
  query_engine (snd (create_query_engine L self k)) = None.
Proof.
  unfold create_query_engine. cbn.
  destruct (index self) as [ix|]; [|intros _ H; exact H].
  destruct (as_query_engine L ix k); cbn; [discriminate|reflexivity].
Qed.

Lemma create_query_engine_ready (self : RAGSystem L) (k : Z) :
  fst (create_query_engine L self k) = true ->
  query_engine (snd (create_query_engine L self k)) <> None.
Proof.
  unfold create_query_engine. cbn.
  destruct (index self) as [ix|]; [|discriminate].
  destruct (as_query_engine L ix k); cbn; [discriminate|discriminate].
Qed.

(** [initialize_system], step by step. *)
Lemma initialize_system_unfold (self : RAGSystem L) :
  initialize_system L self =
  let s1 := load_documents L self in
  if negb (fst s1) then (false, snd s1) else
  let s2 := create_index L (snd s1) in
  if negb (fst s2) then (false, snd s2) else
  let s3 := create_query_engine L (snd s2) 3 in
  if negb (fst s3) then (false, snd s3) else (true, snd s3).
Proof.
  unfold initialize_system.
  destruct (load_documents L self) as [[|] s1]; cbn; [|reflexivity].
  destruct (create_index L s1) as [[|] s2]; cbn; [|reflexivity].
  destruct (create_query_engine L s2 3) as [[|] s3]; reflexivity.
Qed.

End Pipeline.

(** C2: [initialize_system] is strictly forward and stops at the first
    failure.  If [load_documents] fails, it is the only method entered;
    if [create_index] fails, [create_query_engine] is not entered; the
    result is true exactly when all three steps succeed; and a failed run
    started without a query engine ends without one. *)
Theorem C2_initialize_system_halts_on_first_failure
    (L : llama_index) (self : RAGSystem L) :
  let s1 := load_documents L self in
  let s2 := create_index L (snd s1) in
  let s3 := create_query_engine L (snd s2) 3 in
  let run := initialize_system L self in
  (fst s1 = false ->
   run = (false, snd s1)
   /\ calls (snd run) = calls self ++ [CallLoadDocuments])
  /\ (fst s1 = true -> fst s2 = false ->
      run = (false, snd s2)
      /\ calls (snd run) = calls self ++ [CallLoadDocuments; CallCreateIndex])
  /\ (fst run = true <-> fst s1 = true /\ fst s2 = true /\ fst s3 = true)
  /\ (fst run = false -> query_engine self = None ->
      query_engine (snd run) = None).
Proof.
  cbv zeta. rewrite initialize_system_unfold. cbv zeta.
  pose proof (load_documents_calls L self) as C1.
  pose proof (load_documents_engine L self) as E1.
  pose proof (create_index_calls L (snd (load_documents L self))) as C2.
  pose proof (create_index_engine L (snd (load_documents L self))) as E2.
  pose proof (create_query_engine_failed L
                (snd (create_index L (snd (load_documents L self)))) 3) as E3.
  destruct (load_documents L self) as [[|] s1]; cbn in *;
    [destruct (create_index L s1) as [[|] s2]; cbn in *;
     [destruct (create_query_engine L s2 3) as [[|] s3]; cbn in *|]|];
    repeat split; intros;
    repeat match goal with H : _ /\ _ |- _ => destruct H end;
    try discriminate; try reflexivity.
  - apply E3; [reflexivity|congruence].
  - rewrite C2, C1, <- app_assoc. reflexivity.
  - congruence.
  - exact C1.
  - congruence.
Qed.

Lemma C2_witness :
  let run := initialize_system Scenario.library (Scenario.fresh "./empty") in
  (run = (false, snd (load_documents Scenario.library (Scenario.fresh "./empty")))
   /\ calls (snd run) = [CallLoadDocuments])
  /\ query_engine (snd run) = None.
Proof.
  destruct (C2_initialize_system_halts_on_first_failure
              Scenario.library (Scenario.fresh "./empty")) as (H1 & _ & _ & H4).
  split.
  - apply H1. reflexivity.
  - apply H4; reflexivity.
Defined.

(** ** Queries against the pipeline *)

(** C3: without a query engine, [query_documents] raises nothing and
    returns a result whose error is populated, whose response is null and
    whose sources are the empty list. *)
Theorem C3_query_without_engine_returns_error_result
    (L : llama_index) (self : RAGSystem L) (user_input : string) (top_k : Z)
    (Hunset : query_engine self = None) :
  exists result,
    query_documents L self user_input top_k = Returns result
    /\ (exists message, holds_str result "error" message /\ message <> "")
    /\ is_null result "response"
    /\ dict_get "sources" result = Some (PList []).
Proof.
  unfold query_documents. rewrite Hunset.
  eexists. split; [reflexivity|]. split; [|split; reflexivity].
  eexists. split; [reflexivity|discriminate].
Qed.

Lemma C3_witness :
  query_engine (Scenario.fresh "./data") = None
  /\ exists result,
       query_documents Scenario.library (Scenario.fresh "./data")
         "What is AWS Bedrock?" 3 = Returns result
       /\ (exists message, holds_str result "error" message /\ message <> "")
       /\ is_null result "response"
       /\ dict_get "sources" result = Some (PList []).
Proof.
  split; [reflexivity|].
  apply (C3_query_without_engine_returns_error_result
           Scenario.library (Scenario.fresh "./data") "What is AWS Bedrock?" 3).
  reflexivity.
Defined.

(** ** The generation client *)

Lemma py_getitem_raises obj key e :
  py_getitem obj key = Raises e ->
  exc_cls e = KeyError \/ exc_cls e = IndexError \/ exc_cls e = TypeError.
Proof.
  unfold py_getitem. intros H.
  destruct obj, key;
    repeat match type of H with
           | context [match ?x with _ => _ end] => destruct x
           end;
    inversion H; subst; cbn; auto.
Qed.

Lemma py_add_raises a b e :
  py_add a b = Raises e -> exc_cls e = TypeError.
Proof.
  unfold py_add. intros H.
  repeat match type of H with
         | context [match ?x with _ => _ end] => destruct x
         end;
    inversion H; reflexivity.
Qed.

Lemma extract_raises response_body e :
  extract response_body = Raises e ->
  exc_cls e = KeyError \/ exc_cls e = IndexError \/ exc_cls e = TypeError.
Proof.
  unfold extract, bind. intros H.
  repeat match type of H with
         | context [match py_getitem ?o ?k with _ => _ end] =>
             let E := fresh "E" in
             destruct (py_getitem o k) eqn:E;
             [|inversion H; subst; eapply py_getitem_raises; eassumption]
         end.
  destruct (py_add _ _) eqn:Eadd; [discriminate|].
  inversion H; subst. right; right. eapply py_add_raises; eassumption.
Qed.

(** The accesses up to [content[0]] succeeded, since the text was read. *)
Ltac read_content d :=
  let content := fresh "content" in
  let first := fresh "first" in
  destruct (dict_get "content" d) as [content|]; cbn [bind] in *;
  [|discriminate];
  destruct (py_getitem content (KInt 0)) as [first|]; cbn [bind] in *;
  [|discriminate].

Lemma extract_missing_field response_body key :
  missing_field response_body key ->
  extract response_body = Raises (MkExc KeyError (repr_str key)).
Proof.
  unfold extract, content_text.
  destruct 1 as [d Hc | d content first Hc Hf Ht | d text Hx Hu
                | d text usage Hx Hu Hi | d text usage input Hx Hu Hi Ho];
    unfold content_text in *; cbn [py_getitem bind] in *.
  - now rewrite Hc.
  - rewrite Hc. cbn [bind]. rewrite Hf. cbn [py_getitem bind]. now rewrite Ht.
  - read_content d. rewrite Hx. cbn [bind]. now rewrite Hu.
  - read_content d. rewrite Hx. cbn [bind]. rewrite Hu. cbn [py_getitem bind].
    now rewrite Hi.
  - read_content d. rewrite Hx. cbn [bind]. rewrite Hu. cbn [py_getitem bind].
    rewrite Hi. cbn [bind]. now rewrite Ho.
Qed.

Lemma extract_returns_exposes response_body result :
  extract response_body = Returns result ->
  exposes_expected_fields response_body.
Proof.
  unfold extract, exposes_expected_fields, content_text, bind. intros H.
  destruct (response_body.["content"]) as [content|]; [|discriminate].
  destruct (py_getitem content (KInt 0)) as [first|]; [|discriminate].
  destruct (first.["text"]) as [text|]; [|discriminate].
  destruct (response_body.["usage"]) as [usage|]; [|discriminate].
  destruct (usage.["input_tokens"]) as [p|]; [|discriminate].
  destruct (usage.["output_tokens"]) as [t|]; [|discriminate].
  now exists text, p, t.
Qed.

Lemma exposes_extract response_body :
  exposes_expected_fields response_body ->
  forall e, extract response_body = Raises e -> exc_cls e = TypeError.
Proof.
  unfold extract, exposes_expected_fields, content_text, bind.
  intros (text & p & t & Ht & Hp & Ho) e.
  destruct (response_body.["content"]) as [content|]; [|discriminate].
  destruct (py_getitem content (KInt 0)) as [first|]; [|discriminate].
  rewrite Ht.
  destruct (response_body.["usage"]) as [usage|]; [|discriminate].
  rewrite Hp, Ho.
  destruct (py_add p t) eqn:Ha; [discriminate|].
  intros H. injection H as <-. eapply py_add_raises, Ha.
Qed.

Lemma missing_field_lacks response_body key :
  missing_field response_body key -> lacks_expected_field response_body.
Proof.
  intros Hm Hex.
  pose proof (exposes_extract _ Hex _ (extract_missing_field _ _ Hm)) as H.
  discriminate.
Qed.

(** C4: a failure of the call itself makes [generate_response] raise
    [RuntimeError].  A decoded response that does not expose every
    expected field makes it raise another exception, a [KeyError], an
    [IndexError] or a [TypeError], and return nothing; when the first
    thing missing is a key, that exception is the [KeyError] "Missing
    expected key in response body: ..." of the method.  No decoded
    response whatever leads to [RuntimeError], and whenever a result is
    returned every expected field was there. *)
Theorem C4_malformed_response_differs_from_transport_error
    (self : ClaudeModel) (prompt_text : string) (temperature : Q)
    (ai_role : string) :
  let body := ClaudeModel.request_body prompt_text temperature ai_role in
  let answer := generate_response self prompt_text temperature ai_role in
  (forall e, brt self body (modelId self) = Raises e -> transport_error e ->
     answer = Raises (MkExc RuntimeError
                        ("Failed to invoke model: " ++ exc_str e)%string))
  /\ (forall response_body,
        brt self body (modelId self) = Returns response_body ->
        lacks_expected_field response_body ->
        exists e,
          answer = Raises e
          /\ exc_cls e <> RuntimeError
          /\ (exc_cls e = KeyError \/ exc_cls e = IndexError
              \/ exc_cls e = TypeError))
  /\ (forall response_body key,
        brt self body (modelId self) = Returns response_body ->
        missing_field response_body key ->
        lacks_expected_field response_body
        /\ answer = Raises (MkExc KeyError
                              (dquote
                               ++ "Missing expected key in response body: "
                               ++ repr_str key ++ dquote)%string))
  /\ (forall response_body e,
        brt self body (modelId self) = Returns response_body ->
        answer = Raises e ->
        exc_cls e <> RuntimeError)
  /\ (forall response_body result,
        brt self body (modelId self) = Returns response_body ->
        answer = Returns result ->
        exposes_expected_fields response_body).
Proof.
  cbv zeta. unfold generate_response, invoke.
  assert (Hraise : forall response_body e,
             try_except (extract response_body)
               (fun error =>
                  if isinstance error KeyError then
                    Raises (MkExc KeyError
                              (py_repr ("Missing expected key in response body: "
                                        ++ exc_str error)%string))
                  else Raises error) = Raises e ->
             exc_cls e = KeyError \/ exc_cls e = IndexError
             \/ exc_cls e = TypeError).
  { intros response_body e.
    destruct (extract response_body) as [r|e'] eqn:Hx; cbn [try_except];
      [discriminate|].
    apply extract_raises in Hx.
    destruct (isinstance e' KeyError); intros H; injection H as <-; cbn; auto. }
  assert (Hret : forall response_body result,
             try_except (extract response_body)
               (fun error =>
                  if isinstance error KeyError then
                    Raises (MkExc KeyError
                              (py_repr ("Missing expected key in response body: "
                                        ++ exc_str error)%string))
                  else Raises error) = Returns result ->
             exposes_expected_fields response_body).
  { intros response_body result.
    destruct (extract response_body) as [r|e'] eqn:Hx; cbn [try_except].
    - intros _. eapply extract_returns_exposes, Hx.
    - destruct (isinstance e' KeyError); discriminate. }
  split; [|split; [|split; [|split]]].
  - intros e He [Hc | Hc]; rewrite He; cbn [try_except bind];
      unfold isinstance; rewrite Hc; reflexivity.
  - intros response_body Hb Hlack. rewrite Hb. cbn [try_except bind].
    destruct (try_except (extract response_body) _) as [r|e] eqn:Ha.
    + exfalso. apply Hlack. eapply Hret, Ha.
    + exists e. split; [reflexivity|].
      pose proof (Hraise _ _ Ha) as Hc. split; [|exact Hc].
      destruct Hc as [Hc | [Hc | Hc]]; rewrite Hc; discriminate.
  - intros response_body key Hb Hm. split; [eapply missing_field_lacks, Hm|].
    rewrite Hb. cbn [try_except bind].
    rewrite (extract_missing_field _ _ Hm). cbn [try_except isinstance].
    destruct Hm; reflexivity.
  - intros response_body e Hb. rewrite Hb. cbn [try_except bind].
    intros Ha. destruct (Hraise _ _ Ha) as [Hc | [Hc | Hc]]; rewrite Hc;
      discriminate.
  - intros response_body result Hb. rewrite Hb. cbn [try_except bind].
    apply Hret.
Qed.

Lemma C4_witness :
  generate_response Scenario.claude_unreachable "What is AWS Bedrock?"
    default_temperature default_ai_role
  = Raises (MkExc RuntimeError
              "Failed to invoke model: EndpointConnectionError")
  /\ (exists e,
        generate_response Scenario.claude_empty_content "What is AWS Bedrock?"
          default_temperature default_ai_role = Raises e
        /\ exc_cls e <> RuntimeError
        /\ (exc_cls e = KeyError \/ exc_cls e = IndexError
            \/ exc_cls e = TypeError))
  /\ generate_response Scenario.claude_without_usage "What is AWS Bedrock?"
       default_temperature default_ai_role
     = Raises (MkExc KeyError
                 (dquote ++ "Missing expected key in response body: 'usage'"
                  ++ dquote)%string).
Proof.
  split; [|split].
  - apply (proj1 (C4_malformed_response_differs_from_transport_error
                    Scenario.claude_unreachable "What is AWS Bedrock?"
                    default_temperature default_ai_role)
             (MkExc BotoCoreError "EndpointConnectionError")).
    + reflexivity.
    + left. reflexivity.
  - apply (proj1 (proj2 (C4_malformed_response_differs_from_transport_error
                    Scenario.claude_empty_content "What is AWS Bedrock?"
                    default_temperature default_ai_role))
             Scenario.claude_answer_empty_content).
    + reflexivity.
    + intros (text & input & output & Ht & _). discriminate.
  - apply (proj1 (proj2 (proj2 (C4_malformed_response_differs_from_transport_error
                    Scenario.claude_without_usage "What is AWS Bedrock?"
                    default_temperature default_ai_role)))
             Scenario.claude_answer_without_usage "usage").
    + reflexivity.
    + apply missing_usage with (text := PStr "Hello."); reflexivity.
Defined.

(** C9: a result returned by [generate_response] carries the input and
    output token counts the backend reported under [usage], and its
    [total_tokens] is their sum. *)
Theorem C9_total_tokens_is_the_sum
    (self : ClaudeModel) (prompt_text : string) (temperature : Q)
    (ai_role : string) (result : pydict)
    (Hok : generate_response self prompt_text temperature ai_role
           = Returns result) :
  exists response_body usage prompt_tokens response_tokens total_tokens,
    brt self (ClaudeModel.request_body prompt_text temperature ai_role)
      (modelId self) = Returns response_body
    /\ response_body.["usage"] = Returns usage
    /\ usage.["input_tokens"] = Returns prompt_tokens
    /\ usage.["output_tokens"] = Returns response_tokens
    /\ dict_get "prompt_tokens" result = Some prompt_tokens
    /\ dict_get "response_tokens" result = Some response_tokens
    /\ dict_get "total_tokens" result = Some total_tokens
    /\ py_add prompt_tokens response_tokens = Returns total_tokens
    /\ (forall i o, prompt_tokens = PInt i -> response_tokens = PInt o ->
                    total_tokens = PInt (i + o)).
Proof.
  unfold generate_response, invoke in Hok.
  destruct (brt self _ (modelId self)) as [response_body|e] eqn:Hb;
    cbn [try_except bind] in Hok.
  2:{ destruct (_ || _); [discriminate|].
      destruct (isinstance e JSONDecodeError); discriminate. }
  destruct (extract response_body) as [r|e] eqn:Hx; cbn [try_except] in Hok.
  2:{ destruct (isinstance e KeyError); discriminate. }
  injection Hok as ->.
  unfold extract, bind in Hx.
  destruct (response_body.["content"]) as [content|]; [|discriminate].
  destruct (py_getitem content (KInt 0)) as [first|]; [|discriminate].
  destruct (first.["text"]) as [text|]; [|discriminate].
  destruct (response_body.["usage"]) as [usage|] eqn:Hu; [|discriminate].
  destruct (usage.["input_tokens"]) as [p|] eqn:Hp; [|discriminate].
  destruct (usage.["output_tokens"]) as [t|] eqn:Ht; [|discriminate].
  destruct (py_add p t) as [total|] eqn:Ha; [|discriminate].
  injection Hx as <-.
  exists response_body, usage, p, t, total.
  repeat split; try reflexivity; try assumption.
  intros i o -> ->. cbn in Ha. now injection Ha as <-.
Qed.

Lemma C9_witness :
  dict_get "total_tokens" Scenario.claude_result = Some (PInt 42)
  /\ exists response_body usage prompt_tokens response_tokens total_tokens,
    brt Scenario.claude_ok
      (ClaudeModel.request_body "What is AWS Bedrock?" default_temperature
         default_ai_role)
      (modelId Scenario.claude_ok) = Returns response_body
    /\ response_body.["usage"] = Returns usage
    /\ usage.["input_tokens"] = Returns prompt_tokens
    /\ usage.["output_tokens"] = Returns response_tokens
    /\ dict_get "prompt_tokens" Scenario.claude_result = Some prompt_tokens
    /\ dict_get "response_tokens" Scenario.claude_result = Some response_tokens
    /\ dict_get "total_tokens" Scenario.claude_result = Some total_tokens
    /\ py_add prompt_tokens response_tokens = Returns total_tokens
    /\ (forall i o, prompt_tokens = PInt i -> response_tokens = PInt o ->
                    total_tokens = PInt (i + o)).
Proof.
  split; [reflexivity|].
  apply (C9_total_tokens_is_the_sum Scenario.claude_ok "What is AWS Bedrock?"
           default_temperature default_ai_role Scenario.claude_result).
  reflexivity.
Defined.

(** C5, as the specification words it, fails: a call that passes its own
    temperature sends a request whose temperature is not the configured
    one. *)
Lemma C5_counterexample :
  ~ (carries_role_and_prompt
       (ClaudeModel.request_body "What is AWS Bedrock?" (1 # 2) default_ai_role)
       default_ai_role "What is AWS Bedrock?"
     /\ sourced_from_configuration
          (ClaudeModel.request_body "What is AWS Bedrock?" (1 # 2)
             default_ai_role)).
Proof.
  intros (_ & cfg & Hcfg & _ & _ & Ht).
  cbn in Hcfg. injection Hcfg as <-. cbn in Ht. discriminate.
Qed.

(** C5, amended: every request carries the role instruction (as the
    content of an assistant message) and the user prompt; its
    [max_tokens] is 5000 and its [top_p] is 0.9, the literals of
    [generate_response], which equal the entries of
    [Config.get_model_config]; its temperature is the argument of the
    call, whose default 0.1 is the configured value. *)
Theorem C5_request_parameters
    (prompt_text : string) (temperature : Q) (ai_role : string) :
  let body := ClaudeModel.request_body prompt_text temperature ai_role in
  carries_role_and_prompt body ai_role prompt_text
  /\ (messages <- body.["messages"] ;;
      first <- py_getitem messages (KInt 0) ;;
      first.["role"]) = Returns (PStr "assistant")
  /\ body.["max_tokens"] = Returns (PInt 5000)
  /\ body.["top_p"] = Returns (PFloat (9 # 10))
  /\ body.["temperature"] = Returns (PFloat temperature)
  /\ sourced_from_configuration
       (ClaudeModel.request_body prompt_text default_temperature ai_role).
Proof.
  cbv zeta. repeat split.
  exists (PDict [("model_id", PStr Config.CLAUDE_MODEL_ID);
                 ("max_tokens", PInt 5000);
                 ("temperature", PFloat (1 # 10));
                 ("top_p", PFloat (9 # 10))]).
  repeat split.
Qed.

(** ** Source attribution *)

Lemma round_half_even_near (x : Q) :
  (Qabs (inject_Z (round_half_even x) - x) <= 1 # 2)%Q.
Proof.
  unfold round_half_even.
  pose proof (Qfloor_le x) as Hlo.
  pose proof (Qlt_floor x) as Hhi.
  rewrite inject_Z_plus in Hhi. change (inject_Z 1) with 1%Q in Hhi.
  apply Qabs_Qle_condition.
  destruct (Qcompare_spec (x - inject_Z (Qfloor x)) (1 # 2)) as [H|H|H].
  - destruct (Z.even (Qfloor x)).
    + split; lra.
    + rewrite inject_Z_plus. change (inject_Z 1) with 1%Q. split; lra.
  - split; lra.
  - rewrite inject_Z_plus. change (inject_Z 1) with 1%Q. split; lra.
Qed.

Lemma py_round_4_places (x : Q) : rounded_to_4_places x (PFloat (py_round x 4)).
Proof.
  exists (round_half_even (x * inject_Z 10000)). split; [reflexivity|].
  pose proof (round_half_even_near (x * inject_Z 10000)) as H.
  set (n := round_half_even (x * inject_Z 10000)) in *.
  apply Qabs_Qle_condition in H. apply Qabs_Qle_condition.
  assert (Hn : (n # 10000 == inject_Z n * (1 # 10000))%Q).
  { unfold Qeq. cbn. lia. }
  change (inject_Z 10000) with (10000 # 1)%Q in H.
  rewrite Hn. split; lra.
Qed.

Lemma str_take_first_chars (n : nat) (s : string) : str_take n s = first_chars n s.
Proof.
  unfold str_take, first_chars. revert n.
  induction s as [|c s IH]; intros [|n]; cbn; try reflexivity.
  now rewrite IH.
Qed.

Lemma text_preview_is_preview_of (text : string) :
  text_preview text = preview_of text.
Proof.
  unfold text_preview, preview_of. rewrite <- str_take_first_chars.
  destruct (Nat.ltb_spec 150 (String.length text)) as [H|H];
    destruct (Nat.leb_spec (String.length text) 150) as [H'|H'];
    try reflexivity; lia.
Qed.

Lemma text_preview_is_truncate_text (text : string) :
  text_preview text = Utils.truncate_text text 150.
Proof.
  unfold text_preview, Utils.truncate_text.
  destruct (Nat.ltb_spec 150 (String.length text)) as [H|H];
    destruct (Nat.leb_spec (String.length text) 150) as [H'|H'];
    try reflexivity; lia.
Qed.

Section Sources.

Context (L : llama_index).

Lemma collect_sources_entries nodes : forall acc sources,
  collect_sources nodes acc = Returns sources ->
  exists entries,
    sources = acc ++ entries
    /\ Forall2 (fun node src => source_entry node = Returns src) nodes entries.
Proof.
  induction nodes as [|node rest IH]; intros acc sources H; cbn in H.
  - injection H as <-. exists []. split; [now rewrite app_nil_r|constructor].
  - destruct (source_entry node) as [entry|e] eqn:He; cbn in H; [|discriminate].
    destruct (IH _ _ H) as (entries & -> & Hall).
    exists (entry :: entries). split.
    + now rewrite <- app_assoc.
    + now constructor.
Qed.

(** A result without error is the dict of the success path. *)
Lemma query_documents_success (self : RAGSystem L) user_input top_k result :
  query_documents L self user_input top_k = Returns result ->
  is_null result "error" ->
  exists qe response sources,
    query_engine self = Some qe
    /\ engine_query L qe user_input = Returns response
    /\ Forall2 (fun node src => source_entry node = Returns src)
         (source_nodes response) sources
    /\ result = [("error", PNone);
                 ("response", PStr (response_str response));
                 ("sources", PList sources);
                 ("query", PStr user_input);
                 ("num_sources", PInt (Z.of_nat (List.length sources)))].
Proof.
  unfold query_documents, is_null. intros H Hnull.
  destruct (query_engine self) as [qe|].
  2:{ injection H as <-. discriminate. }
  destruct (engine_query L qe user_input) as [response|e] eqn:Hq;
    cbn [bind try_except] in H.
  2:{ injection H as <-. discriminate. }
  destruct (collect_sources (source_nodes response) []) as [sources|e] eqn:Hs;
    cbn [bind try_except] in H.
  2:{ injection H as <-. discriminate. }
  injection H as <-.
  apply collect_sources_entries in Hs. destruct Hs as (entries & -> & Hall).
  exists qe, response, entries. cbn [app]. auto.
Qed.

End Sources.

Lemma source_entry_fields node src :
  source_entry node = Returns src ->
  exists s,
    score node = Some s
    /\ src = PDict [("node_id", PStr (node_id node));
                    ("score", PFloat (py_round s 4));
                    ("text_preview", PStr (text_preview (text node)));
                    ("full_text", PStr (text node))].
Proof.
  unfold source_entry, round_score. destruct (score node) as [s|]; cbn.
  - intros H. injection H as <-. now exists s.
  - discriminate.
Qed.

(** C7: in every successful result of [query_documents], [num_sources]
    is the length of the sources list and the score of each source is
    the score of its node rounded to four decimal places. *)
Theorem C7_num_sources_and_rounded_scores
    (L : llama_index) (self : RAGSystem L) (user_input : string) (top_k : Z)
    (result : pydict)
    (Hret : query_documents L self user_input top_k = Returns result)
    (Hok : is_null result "error") :
  exists qe response sources,
    query_engine self = Some qe
    /\ engine_query L qe user_input = Returns response
    /\ dict_get "sources" result = Some (PList sources)
    /\ dict_get "num_sources" result
       = Some (PInt (Z.of_nat (List.length sources)))
    /\ Forall2
         (fun node src =>
            exists d s v,
              src = PDict d /\ score node = Some s
              /\ dict_get "score" d = Some v /\ rounded_to_4_places s v)
         (source_nodes response) sources.
Proof.
  destruct (query_documents_success L self _ _ _ Hret Hok)
    as (qe & response & sources & Hqe & Hq & Hall & ->).
  exists qe, response, sources. repeat split; try assumption.
  eapply Forall2_impl; [|exact Hall].
  intros node src H. destruct (source_entry_fields _ _ H) as (s & Hs & ->).
  eexists _, s, _. repeat split; [exact Hs|apply py_round_4_places].
Qed.

Lemma C7_witness :
  dict_get "num_sources" Scenario.answer = Some (PInt 2)
  /\ exists qe response sources,
       query_engine Scenario.ready = Some qe
       /\ engine_query Scenario.library qe "What is AWS Bedrock?"
          = Returns response
       /\ dict_get "sources" Scenario.answer = Some (PList sources)
       /\ dict_get "num_sources" Scenario.answer
          = Some (PInt (Z.of_nat (List.length sources)))
       /\ Forall2
            (fun node src =>
               exists d s v,
                 src = PDict d /\ score node = Some s
                 /\ dict_get "score" d = Some v /\ rounded_to_4_places s v)
            (source_nodes response) sources.
Proof.
  split; [reflexivity|].
  apply (C7_num_sources_and_rounded_scores Scenario.library Scenario.ready
           "What is AWS Bedrock?" 3 Scenario.answer); reflexivity.
Defined.

(** C8: in every successful result, the [text_preview] of a source is
    the whole text of its node when that has at most 150 characters, and
    its first 150 characters followed by "..." otherwise; [full_text] is
    the whole text in both cases. *)
Theorem C8_text_preview_and_full_text
    (L : llama_index) (self : RAGSystem L) (user_input : string) (top_k : Z)
    (result : pydict)
    (Hret : query_documents L self user_input top_k = Returns result)
    (Hok : is_null result "error") :
  exists qe response sources,
    query_engine self = Some qe
    /\ engine_query L qe user_input = Returns response
    /\ dict_get "sources" result = Some (PList sources)
    /\ Forall2
         (fun node src =>
            exists d,
              src = PDict d
              /\ holds_str d "text_preview" (preview_of (text node))
              /\ holds_str d "full_text" (text node))
         (source_nodes response) sources.
Proof.
  destruct (query_documents_success L self _ _ _ Hret Hok)
    as (qe & response & sources & Hqe & Hq & Hall & ->).
  exists qe, response, sources. repeat split; try assumption.
  eapply Forall2_impl; [|exact Hall].
  intros node src H. destruct (source_entry_fields _ _ H) as (s & Hs & ->).
  eexists. split; [reflexivity|]. unfold holds_str. cbn.
  rewrite text_preview_is_preview_of. split; reflexivity.
Qed.

Lemma C8_witness :
  exists qe response sources,
    query_engine Scenario.ready = Some qe
    /\ engine_query Scenario.library qe "What is AWS Bedrock?"
       = Returns response
    /\ dict_get "sources" Scenario.answer = Some (PList sources)
    /\ Forall2
         (fun node src =>
            exists d,
              src = PDict d
              /\ holds_str d "text_preview" (preview_of (text node))
              /\ holds_str d "full_text" (text node))
         (source_nodes response) sources.
Proof.
  apply (C8_text_preview_and_full_text Scenario.library Scenario.ready
           "What is AWS Bedrock?" 3 Scenario.answer); reflexivity.
Defined.

(** ** Routing in the chat front end *)

Lemma extract_has_text response_body result :
  extract response_body = Returns result ->
  exists text, dict_get "text" result = Some text.
Proof.
  unfold extract, bind. intros H.
  repeat match type of H with
         | context [match ?x with Returns _ => _ | Raises _ => _ end] =>
             destruct x; [|discriminate]
         end.
  injection H as <-. eexists. reflexivity.
Qed.

Lemma generate_response_has_text self prompt_text temperature ai_role result :
  generate_response self prompt_text temperature ai_role = Returns result ->
  exists text, dict_get "text" result = Some text.
Proof.
  unfold generate_response, bind. intros H.
  destruct (invoke self _) as [response_body|]; [|discriminate].
  destruct (extract response_body) as [r|e] eqn:Hx; cbn [try_except] in H.
  - injection H as <-. eapply extract_has_text, Hx.
  - destruct (isinstance e KeyError); discriminate.
Qed.

Lemma initialize_rag_system_failed L new_claude_model
    (st : session_state L) data_dir aws_region :
  fst (initialize_rag_system L new_claude_model st data_dir aws_region) = false ->
  claude_model (snd (initialize_rag_system L new_claude_model st data_dir aws_region))
  = claude_model st.
Proof.
  unfold initialize_rag_system.
  destruct (RAG.__init__ L data_dir aws_region) as [sys|e]; [|reflexivity].
  destruct (initialize_system L sys) as [[|] sys']; [|reflexivity].
  destruct new_claude_model; cbn; discriminate.
Qed.

(** C6, as the specification words it, fails: in the session whose
    pipeline found no document, a query with the bypass flag set does
    not succeed. *)
Lemma C6_counterexample :
  ~ (use_direct_claude Scenario.session_without_documents = Some true ->
     rag_initialized Scenario.session_without_documents = false ->
     succeeds (get_response Scenario.library
                 Scenario.session_without_documents "What is AWS Bedrock?" 3)).
Proof.
  intros H. destruct (H eq_refl eq_refl) as (result & Hr & Hnull).
  cbv in Hr. injection Hr as <-. discriminate.
Qed.

(** C6, amended: with the bypass flag set, [get_response] looks at the
    Claude model of the session only, never at the pipeline.  With a
    model, the query goes to [generate_response] and the result is a
    success carrying its text when that returns and an error result when
    it raises; without one, the result is the error "Claude model not
    initialized".  A failed [initialize_rag_system] leaves the model of
    the session as it was, so a session that never had a successful
    initialisation has none. *)
Theorem C6_bypass_needs_only_the_claude_model
    (L : llama_index) (new_claude_model : outcome ClaudeModel)
    (st : session_state L) (query : string) (k : Z)
    (Hflag : use_direct_claude st = Some true) :
  (forall model, claude_model st = Some model ->
     (forall result,
         generate_response model query default_temperature default_ai_role
         = Returns result ->
         exists text,
           dict_get "text" result = Some text
           /\ get_response L st query k
              = Returns [("error", PNone); ("response", text);
                         ("sources", PList []); ("query", PStr query);
                         ("num_sources", PInt 0)])
     /\ (forall e,
           generate_response model query default_temperature default_ai_role
           = Raises e ->
           get_response L st query k
           = Returns (error_result
                        ("Claude model error: " ++ exc_str e)%string query)))
  /\ (claude_model st = None ->
      get_response L st query k
      = Returns (error_result "Claude model not initialized" query))
  /\ (forall st' : session_state L,
        use_direct_claude st' = Some true ->
        claude_model st' = claude_model st ->
        get_response L st' query k = get_response L st query k)
  /\ (forall data_dir aws_region,
        fst (initialize_rag_system L new_claude_model st data_dir aws_region)
        = false ->
        claude_model
          (snd (initialize_rag_system L new_claude_model st data_dir aws_region))
        = claude_model st).
Proof.
  repeat split.
  - intros result Hg. destruct (generate_response_has_text _ _ _ _ _ Hg)
      as (text & Ht).
    exists text. split; [exact Ht|].
    unfold get_response. rewrite Hflag, H, Hg. cbn [bind try_except py_getitem].
    now rewrite Ht.
  - intros e Hg. unfold get_response. now rewrite Hflag, H, Hg.
  - intros Hnone. unfold get_response. now rewrite Hflag, Hnone.
  - intros st' Hflag' Hmodel. unfold get_response.
    now rewrite Hflag, Hflag', Hmodel.
  - intros data_dir aws_region. apply initialize_rag_system_failed.
Qed.

Lemma C6_witness :
  get_response Scenario.library Scenario.session_without_documents
    "What is AWS Bedrock?" 3
  = Returns (error_result "Claude model not initialized" "What is AWS Bedrock?")
  /\ exists text,
       dict_get "text" Scenario.claude_result = Some text
       /\ get_response Scenario.library Scenario.session_ready
            "What is AWS Bedrock?" 3
          = Returns [("error", PNone); ("response", text);
                     ("sources", PList []);
                     ("query", PStr "What is AWS Bedrock?");
                     ("num_sources", PInt 0)].
Proof.
  split.
  - apply (proj1 (proj2 (C6_bypass_needs_only_the_claude_model
                           Scenario.library (Returns Scenario.claude_ok)
                           Scenario.session_without_documents
                           "What is AWS Bedrock?" 3 eq_refl))).
    reflexivity.
  - apply (proj1 (proj1 (C6_bypass_needs_only_the_claude_model
                           Scenario.library (Returns Scenario.claude_ok)
                           Scenario.session_ready
                           "What is AWS Bedrock?" 3 eq_refl)
                    Scenario.claude_ok eq_refl)
             Scenario.claude_result).
    reflexivity.
Defined.

(** ** The result dicts of the query boundary *)

(** C10: on a [RAGSystem] without query engine, [query_documents]
    returns an error result that has no [query] entry, whereas the error
    result of its [except] branch and those of [get_response] echo the
    query. *)
Theorem C10_unset_engine_result_has_no_query :
  exists result,
    query_documents Scenario.library (Scenario.fresh "./data")
      "What is AWS Bedrock?" 3 = Returns result
    /\ (exists message, holds_str result "error" message)
    /\ is_null result "response"
    /\ dict_get "query" result = None.
Proof.
  eexists. split; [reflexivity|]. split; [eexists; reflexivity|].
  split; reflexivity.
Qed.

(** * Further properties of the code *)

Import EmbeddingSetup Credentials Files Chat.

(** ** Embeddings: every path of [_get_embedding] *)

Lemma embedding_result client warning (self : CustomTitanEmbedding) text :
  embedding_paths client warning self text
    (try_except
       (response_body <- client (Embeddings.request_body self text) (model_name self) ;;
        embedding <- response_body.["embedding"] ;;
        Returns embedding)
       (fun e =>
          _ <- _stdout self (warning text e) ;;
          Returns (PList (repeat (PFloat 0) (fallback_dim self))))).
Proof.
  unfold embedding_paths, caught.
  destruct (client _ _) as [body|e] eqn:Hc; cbn [bind try_except].
  - destruct (body.["embedding"]) as [v|e] eqn:He; cbn [bind try_except].
    + left. exists body, v. auto.
    + right. exists e. split; [right; exists body; auto|].
      destruct (_stdout self (warning text e)) as [[]|e']; cbn [bind].
      * left. split; [reflexivity|]. eexists. split; [reflexivity|].
        apply zero_vector_repeat.
      * right. exists e'. auto.
  - right. exists e. split; [now left|].
    destruct (_stdout self (warning text e)) as [[]|e']; cbn [bind].
    + left. split; [reflexivity|]. eexists. split; [reflexivity|].
      apply zero_vector_repeat.
    + right. exists e'. auto.
Qed.

(** X1: every path of [_get_embedding] and [_aget_embedding].  Each
    returns the [embedding] entry of the decoded response unchanged when
    there is one.  In every other case its handler prints a warning and
    then returns the zero vector of the fallback dimension; it raises
    only when printing that warning raises, and then raises that
    exception. *)
Theorem X1_embedding_paths (self : CustomTitanEmbedding) (text : string) :
  embedding_paths (_client self) fallback_warning self text
    (_get_embedding self text)
  /\ embedding_paths (_asession self) afallback_warning self text
       (_aget_embedding self text).
Proof.
  split; apply embedding_result.
Qed.

(** ** Embeddings: requested and fallback dimension *)

(** X2: the request and the fallback choose the dimension by different
    tests.  For the text model v1 the request names no dimension and the
    fallback has 1536 components; for a name without "v1" the request
    asks for 1024 dimensions and the fallback has 1024; for any other
    name that contains "v1" the request asks for 1024 dimensions while
    the fallback has 1536 components. *)
Theorem X2_requested_and_fallback_dimension
    (self : CustomTitanEmbedding) (text : string) :
  (model_name self = "amazon.titan-embed-text-v1"%string ->
   Embeddings.request_body self text = PDict [("inputText", PStr text)]
   /\ fallback_dim self = 1536%nat)
  /\ (str_contains "v1" (model_name self) = false ->
      (Embeddings.request_body self text).["dimensions"] = Returns (PInt 1024)
      /\ fallback_dim self = 1024%nat)
  /\ (str_contains "v1" (model_name self) = true ->
      model_name self <> "amazon.titan-embed-text-v1"%string ->
      (Embeddings.request_body self text).["dimensions"] = Returns (PInt 1024)
      /\ fallback_dim self = 1536%nat).
Proof.
  unfold Embeddings.request_body, fallback_dim. repeat split.
  - rewrite H. reflexivity.
  - rewrite H. reflexivity.
  - destruct (String.eqb_spec (model_name self) "amazon.titan-embed-text-v1")
      as [E|E]; [|reflexivity].
    rewrite E in H. discriminate.
  - now rewrite H.
  - destruct (String.eqb_spec (model_name self) "amazon.titan-embed-text-v1")
      as [E|E]; [contradiction|reflexivity].
  - now rewrite H.
Qed.

Lemma X2_witness :
  (Embeddings.request_body Scenario.titan_v1 "hello" = PDict [("inputText", PStr "hello")]
   /\ fallback_dim Scenario.titan_v1 = 1536%nat)
  /\ ((Embeddings.request_body Scenario.titan_v2 "hello").["dimensions"]
      = Returns (PInt 1024)
      /\ fallback_dim Scenario.titan_v2 = 1024%nat)
  /\ ((Embeddings.request_body Fixtures.titan_image "hello").["dimensions"]
      = Returns (PInt 1024)
      /\ fallback_dim Fixtures.titan_image = 1536%nat).
Proof.
  split; [|split].
  - apply (proj1 (X2_requested_and_fallback_dimension Scenario.titan_v1 "hello")).
    reflexivity.
  - apply (proj1 (proj2 (X2_requested_and_fallback_dimension
                           Scenario.titan_v2 "hello"))).
    reflexivity.
  - apply (proj2 (proj2 (X2_requested_and_fallback_dimension
                           Fixtures.titan_image "hello"))).
    + reflexivity.
    + discriminate.
Defined.

(** ** Embeddings: [setup_custom_embedding] *)





(** ** Embeddings: the credentials of the session *)

(** X5: in the keyword arguments [_setup_clients] passes to the
    sessions, each credential is the argument of the constructor when
    that is a non-empty string and the environment variable of the same
    name otherwise; a credential that is given by neither, and a region
    that is [None], have no entry, so that no entry is [None]. *)
Theorem X5_session_kwargs_resolve_credentials
    (env : environ)
    (region_name aws_access_key_id aws_secret_access_key aws_session_token
       : option string) :
  let kwargs := session_kwargs env region_name aws_access_key_id
                  aws_secret_access_key aws_session_token in
  dict_get "region_name" kwargs = option_map PStr region_name
  /\ dict_get "aws_access_key_id" kwargs
     = option_map PStr (resolve env "aws_access_key_id" aws_access_key_id)
  /\ dict_get "aws_secret_access_key" kwargs
     = option_map PStr (resolve env "aws_secret_access_key" aws_secret_access_key)
  /\ dict_get "aws_session_token" kwargs
     = option_map PStr (resolve env "aws_session_token" aws_session_token)
  /\ Forall (fun kv => snd kv <> PNone) kwargs
  /\ (forall name s, s <> ""%string -> resolve env name (Some s) = Some s)
  /\ (forall name, resolve env name None = env name
                   /\ resolve env name (Some ""%string) = env name).
Proof.
  cbv zeta. unfold session_kwargs.
  destruct region_name,
    (resolve env "aws_access_key_id" aws_access_key_id),
    (resolve env "aws_secret_access_key" aws_secret_access_key),
    (resolve env "aws_session_token" aws_session_token); cbn;
    (repeat split;
     [ repeat (apply Forall_cons; [cbn; discriminate|]); apply Forall_nil
     | intros name s' Hs; unfold resolve, or_else; cbn;
       destruct (String.eqb_spec s' ""); [contradiction|reflexivity] ]).
Qed.

Lemma X5_witness :
  dict_get "aws_access_key_id"
    (session_kwargs Fixtures.env_full (Some "eu-central-1"%string)
       (Some "AKIAOTHER"%string) None None)
  = Some (PStr "AKIAOTHER")
  /\ resolve Fixtures.env_full "aws_session_token" (Some "given"%string)
     = Some "given"%string.
Proof.
  destruct (X5_session_kwargs_resolve_credentials Fixtures.env_full
              (Some "eu-central-1"%string) (Some "AKIAOTHER"%string) None None)
    as (_ & Hk & _ & _ & _ & Hr & _).
  split.
  - exact Hk.
  - apply Hr. discriminate.
Defined.

(** ** The generation client: success and the other errors *)

(** X6: if the call returns a decoded object whose first content block
    has a text and whose usage holds integer token counts,
    [generate_response] returns that text, the two counts and their sum. *)
Theorem X6_generate_response_returns_on_well_formed_answer
    (self : ClaudeModel) (prompt_text : string) (temperature : Q)
    (ai_role : string) (d usage : pydict) (text : pyval) (i o : Z)
    (Hcall : brt self (ClaudeModel.request_body prompt_text temperature ai_role)
               (modelId self) = Returns (PDict d))
    (Htext : content_text (PDict d) = Returns text)
    (Husage : dict_get "usage" d = Some (PDict usage))
    (Hin : dict_get "input_tokens" usage = Some (PInt i))
    (Hout : dict_get "output_tokens" usage = Some (PInt o)) :
  generate_response self prompt_text temperature ai_role
  = Returns [("text", text); ("prompt_tokens", PInt i);
             ("response_tokens", PInt o); ("total_tokens", PInt (i + o))].
Proof.
  unfold generate_response, invoke. rewrite Hcall. cbn [try_except bind].
  unfold extract. unfold content_text in Htext. cbn [py_getitem bind] in *.
  read_content d. rewrite Htext. cbn [bind]. rewrite Husage.
  cbn [py_getitem bind]. rewrite Hin. cbn [bind]. rewrite Hout. reflexivity.
Qed.

Lemma X6_witness :
  generate_response Scenario.claude_ok "What is AWS Bedrock?"
    default_temperature default_ai_role
  = Returns [("text", PStr "Hello."); ("prompt_tokens", PInt 12);
             ("response_tokens", PInt 30); ("total_tokens", PInt (12 + 30))].
Proof.
  apply (X6_generate_response_returns_on_well_formed_answer
           Scenario.claude_ok "What is AWS Bedrock?" default_temperature
           default_ai_role
           [("content", PList [PDict [("type", PStr "text");
                                      ("text", PStr "Hello.")]]);
            ("usage", PDict [("input_tokens", PInt 12);
                             ("output_tokens", PInt 30)])]
           [("input_tokens", PInt 12); ("output_tokens", PInt 30)]);
    reflexivity.
Defined.

(** X7: a body that is not JSON makes [generate_response] raise
    [ValueError] "Failed to parse response body: ..."; an exception of
    the call that is neither a Boto error nor a decoding error leaves
    [generate_response] unchanged. *)
Theorem X7_decode_error_and_foreign_exceptions
    (self : ClaudeModel) (prompt_text : string) (temperature : Q)
    (ai_role : string) (e : pyexc)
    (Hcall : brt self (ClaudeModel.request_body prompt_text temperature ai_role)
               (modelId self) = Raises e) :
  (exc_cls e = JSONDecodeError ->
   generate_response self prompt_text temperature ai_role
   = Raises (MkExc ValueError
               ("Failed to parse response body: " ++ exc_str e)%string))
  /\ (exc_cls e <> BotoCoreError -> exc_cls e <> ClientError ->
      exc_cls e <> JSONDecodeError ->
      generate_response self prompt_text temperature ai_role = Raises e).
Proof.
  unfold generate_response, invoke. rewrite Hcall. cbn [try_except bind].
  unfold isinstance. split.
  - intros ->. reflexivity.
  - intros Hb Hc Hj. destruct (exc_cls e); try contradiction; reflexivity.
Qed.

Lemma X7_witness :
  generate_response
    {| brt := fun _ _ => Raises (MkExc JSONDecodeError "Expecting value");
       modelId := Config.CLAUDE_MODEL_ID |}
    "What is AWS Bedrock?" default_temperature default_ai_role
  = Raises (MkExc ValueError "Failed to parse response body: Expecting value")
  /\ generate_response
       {| brt := fun _ _ => Raises (MkExc OtherException "no body");
          modelId := Config.CLAUDE_MODEL_ID |}
       "What is AWS Bedrock?" default_temperature default_ai_role
     = Raises (MkExc OtherException "no body").
Proof.
  split.
  - apply (proj1 (X7_decode_error_and_foreign_exceptions
                    {| brt := fun _ _ => Raises (MkExc JSONDecodeError "Expecting value");
                       modelId := Config.CLAUDE_MODEL_ID |}
                    "What is AWS Bedrock?" default_temperature default_ai_role
                    (MkExc JSONDecodeError "Expecting value") eq_refl)).
    reflexivity.
  - apply (proj2 (X7_decode_error_and_foreign_exceptions
                    {| brt := fun _ _ => Raises (MkExc OtherException "no body");
                       modelId := Config.CLAUDE_MODEL_ID |}
                    "What is AWS Bedrock?" default_temperature default_ai_role
                    (MkExc OtherException "no body") eq_refl)); discriminate.
Defined.

(** X8: a decoded object whose content list is empty makes
    [generate_response] raise [IndexError], and a decoded value that is
    a list, a string, a number or null makes it raise [TypeError]: these
    are not turned into the [KeyError] of a missing key. *)
Theorem X8_empty_content_and_non_object_answers
    (self : ClaudeModel) (prompt_text : string) (temperature : Q)
    (ai_role : string) (response_body : pyval)
    (Hcall : brt self (ClaudeModel.request_body prompt_text temperature ai_role)
               (modelId self) = Returns response_body) :
  (forall d, response_body = PDict d ->
             dict_get "content" d = Some (PList []) ->
             generate_response self prompt_text temperature ai_role
             = Raises (MkExc IndexError "list index out of range"))
  /\ ((forall d, response_body <> PDict d) ->
      exists message,
        generate_response self prompt_text temperature ai_role
        = Raises (MkExc TypeError message)).
Proof.
  unfold generate_response, invoke. rewrite Hcall. cbn [try_except bind].
  split.
  - intros d -> Hc. unfold extract. cbn [py_getitem bind]. rewrite Hc.
    reflexivity.
  - intros Hnot. destruct response_body; try (eexists; reflexivity).
    exfalso. eapply Hnot. reflexivity.
Qed.

Lemma X8_witness :
  generate_response
    {| brt := fun _ _ => Returns (PDict [("content", PList []);
                                         ("usage", PDict [])]);
       modelId := Config.CLAUDE_MODEL_ID |}
    "What is AWS Bedrock?" default_temperature default_ai_role
  = Raises (MkExc IndexError "list index out of range")
  /\ exists message,
       generate_response
         {| brt := fun _ _ => Returns (PList []);
            modelId := Config.CLAUDE_MODEL_ID |}
         "What is AWS Bedrock?" default_temperature default_ai_role
       = Raises (MkExc TypeError message).
Proof.
  split.
  - apply (proj1 (X8_empty_content_and_non_object_answers
                    {| brt := fun _ _ => Returns (PDict [("content", PList []);
                                                         ("usage", PDict [])]);
                       modelId := Config.CLAUDE_MODEL_ID |}
                    "What is AWS Bedrock?" default_temperature default_ai_role
                    _ eq_refl)
             [("content", PList []); ("usage", PDict [])]); reflexivity.
  - apply (proj2 (X8_empty_content_and_non_object_answers
                    {| brt := fun _ _ => Returns (PList []);
                       modelId := Config.CLAUDE_MODEL_ID |}
                    "What is AWS Bedrock?" default_temperature default_ai_role
                    _ eq_refl)).
    discriminate.
Defined.

(** ** Credentials and the constructor of the generation client *)

Lemma py_truthy_getenv (env : environ) (name : string) :
  py_truthy (getenv env name) = true <->
  exists s, env name = Some s /\ s <> ""%string.
Proof.
  unfold getenv. destruct (env name) as [s|]; cbn.
  - destruct (String.eqb_spec s ""); cbn; split.
    + discriminate.
    + intros (s' & H & Hs). injection H as <-. contradiction.
    + intros _. now exists s.
    + reflexivity.
  - split; [discriminate|]. intros (s & H & _). discriminate.
Qed.

(** X9: [Config.validate_credentials] holds exactly when the three
    variables aws_access_key_id, aws_secret_access_key and
    aws_session_token are all set to non-empty strings, and the entry
    aws_credentials of [validate_environment] is that same truth value. *)
Theorem X9_validate_credentials_characterised (env : environ) :
  (validate_credentials env = true <->
   forall name,
     In name ["aws_access_key_id"; "aws_secret_access_key";
              "aws_session_token"]%string ->
     exists s, env name = Some s /\ s <> ""%string)
  /\ (forall dotenv boto3 llama_index,
        dict_get "aws_credentials"
          (validate_environment dotenv boto3 llama_index env)
        = Some (PBool (validate_credentials env))).
Proof.
  split; [|reflexivity].
  unfold validate_credentials, get_aws_credentials. cbn [map snd forallb].
  rewrite !andb_true_iff, !py_truthy_getenv. split.
  - intros (H1 & H2 & H3 & _) name [<-|[<-|[<-|[]]]]; assumption.
  - intros H. repeat split; try apply H; cbn; auto.
Qed.

Lemma X9_witness :
  validate_credentials Fixtures.env_full = true
  /\ exists s, Fixtures.env_full "aws_session_token" = Some s /\ s <> ""%string.
Proof.
  split; [reflexivity|].
  apply (proj1 (proj1 (X9_validate_credentials_characterised Fixtures.env_full))
           eq_refl).
  cbn. auto.
Defined.

(** X10: [ClaudeModel()] raises [FileNotFoundError] when no [.env] file
    is found, whatever the environment holds; with a [.env] file it
    raises [ValueError] when [Config.validate_credentials] is false; a
    Boto error of [boto3.client] becomes [ConnectionError]; and when it
    returns an object, the file was found, the credentials are valid and
    the model is Claude 3 Sonnet. *)
Theorem X10_claude_constructor
    (dotenv_path : string) (env : environ)
    (boto3_client : pydict -> outcome (pyval -> string -> outcome pyval)) :
  let answer := ClaudeInit.__init__ dotenv_path env boto3_client in
  let kwargs := [("service_name", PStr "bedrock-runtime");
                 ("region_name", PStr "eu-central-1");
                 ("aws_access_key_id", getenv env "aws_access_key_id");
                 ("aws_secret_access_key", getenv env "aws_secret_access_key");
                 ("aws_session_token", getenv env "aws_session_token")] in
  (dotenv_path = ""%string ->
   answer = Raises (MkExc FileNotFoundError "Could not find .env file"))
  /\ (dotenv_path <> ""%string -> validate_credentials env = false ->
      answer = Raises (MkExc ValueError
                         "One or more AWS credentials are missing in the .env file"))
  /\ (forall e, dotenv_path <> ""%string -> validate_credentials env = true ->
                boto3_client kwargs = Raises e -> transport_error e ->
                answer = Raises (MkExc ConnectionError
                                   ("Failed to create boto3 client: "
                                    ++ exc_str e)%string))
  /\ (forall m, answer = Returns m ->
                dotenv_path <> ""%string
                /\ validate_credentials env = true
                /\ boto3_client kwargs = Returns (brt m)
                /\ modelId m = Config.CLAUDE_MODEL_ID).
Proof.
  cbv zeta. unfold ClaudeInit.__init__, validate_credentials, get_aws_credentials.
  cbn [map snd py_truthy].
  repeat split.
  - intros ->. reflexivity.
  - intros Hp Hv. destruct (String.eqb_spec dotenv_path ""); [contradiction|].
    cbn [negb]. rewrite Hv. reflexivity.
  - intros e Hp Hv Hc [Ht|Ht].
    all: destruct (String.eqb_spec dotenv_path ""); [contradiction|].
    all: cbn [negb]; rewrite Hv; cbn [negb]; rewrite Hc; cbn [try_except bind].
    all: unfold isinstance; rewrite Ht; reflexivity.
  - destruct (String.eqb_spec dotenv_path ""); [discriminate|assumption].
  - destruct (String.eqb_spec dotenv_path ""); [discriminate|].
    cbn [negb] in H. destruct (forallb py_truthy _); [reflexivity|discriminate].
  - destruct (String.eqb_spec dotenv_path ""); [discriminate|].
    cbn [negb] in H. destruct (forallb py_truthy _); [|discriminate].
    cbn [negb] in H. destruct (boto3_client _) as [c|e]; cbn in H.
    + injection H as <-. reflexivity.
    + destruct (_ || _); discriminate.
  - destruct (String.eqb_spec dotenv_path ""); [discriminate|].
    cbn [negb] in H. destruct (forallb py_truthy _); [|discriminate].
    cbn [negb] in H. destruct (boto3_client _) as [c|e]; cbn in H.
    + injection H as <-. reflexivity.
    + destruct (_ || _); discriminate.
Qed.

Lemma X10_witness :
  ClaudeInit.__init__ "" Fixtures.env_full (fun _ => Returns (brt Scenario.claude_ok))
  = Raises (MkExc FileNotFoundError "Could not find .env file")
  /\ ClaudeInit.__init__ "/app/.env" Fixtures.env_empty_token
       (fun _ => Returns (brt Scenario.claude_ok))
     = Raises (MkExc ValueError
                 "One or more AWS credentials are missing in the .env file")
  /\ ClaudeInit.__init__ "/app/.env" Fixtures.env_full
       (fun _ => Raises (MkExc ClientError "UnknownEndpoint"))
     = Raises (MkExc ConnectionError
                 "Failed to create boto3 client: UnknownEndpoint").
Proof.
  split; [|split].
  - apply (proj1 (X10_claude_constructor "" Fixtures.env_full
                    (fun _ => Returns (brt Scenario.claude_ok)))).
    reflexivity.
  - apply (proj1 (proj2 (X10_claude_constructor "/app/.env"
                           Fixtures.env_empty_token
                           (fun _ => Returns (brt Scenario.claude_ok)))));
      [discriminate|reflexivity].
  - apply (proj1 (proj2 (proj2 (X10_claude_constructor "/app/.env"
                                  Fixtures.env_full
                                  (fun _ => Raises (MkExc ClientError "UnknownEndpoint")))))
             (MkExc ClientError "UnknownEndpoint"));
      [discriminate|reflexivity|reflexivity|right; reflexivity].
Defined.

(** X11: once the pipeline has been initialised, [initialize_rag_system]
    returns true whether or not [ClaudeModel()] succeeds: the session
    gets the new model when the constructor returns one and keeps the
    model it had when the constructor raises. *)
Theorem X11_initialisation_survives_failing_claude_constructor
    (L : llama_index) (new_claude_model : outcome ClaudeModel)
    (st : session_state L) (data_dir aws_region : string) (sys : RAGSystem L)
    (Hnew : RAG.__init__ L data_dir aws_region = Returns sys)
    (Hready : fst (initialize_system L sys) = true) :
  let after := initialize_rag_system L new_claude_model st data_dir aws_region in
  fst after = true
  /\ rag_system (snd after) = Some (snd (initialize_system L sys))
  /\ claude_model (snd after)
     = match new_claude_model with
       | Returns m => Some m
       | Raises _ => claude_model st
       end.
Proof.
  cbv zeta. unfold initialize_rag_system. rewrite Hnew.
  destruct (initialize_system L sys) as [ok sys']. cbn in Hready. subst ok.
  destruct new_claude_model; cbn; auto.
Qed.

Lemma X11_witness :
  let after :=
    initialize_rag_system Scenario.library
      (Raises (MkExc FileNotFoundError "Could not find .env file"))
      (new_session Scenario.library) "./data" "eu-central-1" in
  fst after = true /\ claude_model (snd after) = None.
Proof.
  destruct (X11_initialisation_survives_failing_claude_constructor
              Scenario.library
              (Raises (MkExc FileNotFoundError "Could not find .env file"))
              (new_session Scenario.library) "./data" "eu-central-1"
              (Scenario.fresh "./data") eq_refl eq_refl) as (H1 & _ & H3).
  split; [exact H1|exact H3].
Defined.

(** ** Configuration *)

(** X12: [Config.get_model_config] knows exactly the types "claude",
    "claude_35" and "titan_embedding" and raises [ValueError] "Unknown
    model type: ..." for every other string; the dimension it gives for
    the Titan model is the length of the fallback vector of a
    [CustomTitanEmbedding] of the configured model. *)
Theorem X12_get_model_config (model_type : string) :
  (In model_type ["claude"; "claude_35"; "titan_embedding"]%string ->
   exists cfg model_id,
     Config.get_model_config model_type = Returns (PDict cfg)
     /\ dict_get "model_id" cfg = Some (PStr model_id))
  /\ (~ In model_type ["claude"; "claude_35"; "titan_embedding"]%string ->
      Config.get_model_config model_type
      = Raises (MkExc ValueError ("Unknown model type: " ++ model_type)%string))
  /\ (forall cfg (self : CustomTitanEmbedding),
        Config.get_model_config "titan_embedding" = Returns (PDict cfg) ->
        dict_get "model_id" cfg = Some (PStr (model_name self)) ->
        dict_get "dimensions" cfg = Some (PInt (Z.of_nat (fallback_dim self)))).
Proof.
  unfold Config.get_model_config. repeat split.
  - intros [<-|[<-|[<-|[]]]]; cbn; do 2 eexists; split; reflexivity.
  - intros Hnot. cbn in Hnot.
    destruct (String.eqb_spec model_type "claude") as [->|_]; [tauto|].
    destruct (String.eqb_spec model_type "claude_35") as [->|_]; [tauto|].
    destruct (String.eqb_spec model_type "titan_embedding") as [->|_]; [tauto|].
    reflexivity.
  - cbn. intros cfg self H Hid. injection H as <-. cbn in Hid.
    injection Hid as Hid. unfold fallback_dim. rewrite <- Hid. reflexivity.
Qed.

Lemma X12_witness :
  Config.get_model_config "gpt" = Raises (MkExc ValueError "Unknown model type: gpt")
  /\ dict_get "dimensions"
       [("model_id", PStr Config.TITAN_EMBEDDING_MODEL_V1); ("dimensions", PInt 1536)]
     = Some (PInt (Z.of_nat (fallback_dim Scenario.titan_v1))).
Proof.
  split.
  - apply (proj1 (proj2 (X12_get_model_config "gpt"))).
    cbn. intros [H|[H|[H|[]]]]; discriminate.
  - apply (proj2 (proj2 (X12_get_model_config "claude")) _ Scenario.titan_v1);
      reflexivity.
Defined.

(** ** The pipeline: each step and the ready state *)

(** X13: [load_documents] never raises.  It returns true exactly when
    the reader returned at least one document, and then keeps those
    documents; whenever it returns false, because the reader raised or
    found nothing, the object holds no documents afterwards. *)
Theorem X13_load_documents (L : llama_index) (self : RAGSystem L) :
  let after := load_documents L self in
  (fst after = true <->
   exists d ds, load_data L (data_directory self) = Returns (d :: ds))
  /\ (forall docs, load_data L (data_directory self) = Returns docs ->
                   documents (snd after) = docs)
  /\ (fst after = false -> documents (snd after) = [])
  /\ index (snd after) = index self
  /\ query_engine (snd after) = query_engine self.
Proof.
  cbv zeta. unfold load_documents. cbn.
  destruct (load_data L (data_directory self)) as [[|d ds]|e]; cbn;
    repeat split; intros; try discriminate; try reflexivity; eauto.
  - destruct H as (d & ds & H). discriminate.
  - injection H as <-. reflexivity.
  - injection H as <-. reflexivity.
  - destruct H as (d & ds & H). discriminate.
Qed.

Lemma X13_witness :
  fst (load_documents Scenario.library (Scenario.fresh "./data")) = true
  /\ documents (snd (load_documents Scenario.library (Scenario.fresh "./empty"))) = []
  /\ documents (snd (load_documents Scenario.library (Scenario.fresh "./locked"))) = [].
Proof.
  split; [|split].
  - apply (proj1 (X13_load_documents Scenario.library (Scenario.fresh "./data"))).
    now exists "manual.pdf"%string, [].
  - apply (proj1 (proj2 (proj2 (X13_load_documents Scenario.library
                                  (Scenario.fresh "./empty"))))).
    reflexivity.
  - apply (proj1 (proj2 (proj2 (X13_load_documents Scenario.library
                                  (Scenario.fresh "./locked"))))).
    reflexivity.
Defined.

(** X14: when [initialize_system] returns true, the reader returned a
    non-empty list of documents which the object now holds, the index
    was built from exactly those documents, the query engine was made
    from that index with [similarity_top_k] 3, and the three methods
    were entered once each, in order. *)
Theorem X14_initialize_system_ready
    (L : llama_index) (self : RAGSystem L)
    (Hready : fst (initialize_system L self) = true) :
  let after := snd (initialize_system L self) in
  exists docs ix qe,
    load_data L (data_directory self) = Returns docs
    /\ docs <> []
    /\ from_documents L docs = Returns ix
    /\ as_query_engine L ix 3 = Returns qe
    /\ documents after = docs
    /\ index after = Some ix
    /\ query_engine after = Some qe
    /\ calls after
       = calls self ++ [CallLoadDocuments; CallCreateIndex; CallCreateQueryEngine].
Proof.
  cbv zeta. revert Hready.
  unfold initialize_system, load_documents, create_index, create_query_engine.
  cbn.
  destruct (load_data L (data_directory self)) as [[|d ds]|e]; cbn;
    try discriminate.
  destruct (from_documents L (d :: ds)) as [ix|e] eqn:Hix; cbn;
    try discriminate.
  destruct (as_query_engine L ix 3) as [qe|e] eqn:Hqe; cbn; try discriminate.
  intros _. exists (d :: ds), ix, qe.
  repeat split; try reflexivity; try discriminate; try assumption.
  now rewrite <- !app_assoc.
Qed.

Lemma X14_witness :
  exists docs ix qe,
    load_data Scenario.library "./data" = Returns docs
    /\ docs <> []
    /\ from_documents Scenario.library docs = Returns ix
    /\ as_query_engine Scenario.library ix 3 = Returns qe
    /\ documents Scenario.ready = docs
    /\ index Scenario.ready = Some ix
    /\ query_engine Scenario.ready = Some qe
    /\ calls Scenario.ready
       = [CallLoadDocuments; CallCreateIndex; CallCreateQueryEngine].
Proof.
  apply (X14_initialize_system_ready Scenario.library (Scenario.fresh "./data")).
  reflexivity.
Defined.

(** X15: a query engine survives a failed re-initialisation.  If the
    object has a query engine and [load_documents] fails,
    [initialize_system] returns false, the object has no documents any
    more, and yet it keeps the old engine and [query_documents] answers
    as before. *)
Theorem X15_stale_engine_after_failed_reload
    (L : llama_index) (self : RAGSystem L) (qe : engine L)
    (Hengine : query_engine self = Some qe)
    (Hload : fst (load_documents L self) = false) :
  let after := snd (initialize_system L self) in
  fst (initialize_system L self) = false
  /\ documents after = []
  /\ query_engine after = Some qe
  /\ forall user_input top_k,
       query_documents L after user_input top_k
       = query_documents L self user_input top_k.
Proof.
  cbv zeta. rewrite initialize_system_unfold. cbv zeta. rewrite Hload. cbn.
  pose proof (load_documents_engine L self) as He.
  assert (Hd : documents (snd (load_documents L self)) = []).
  { revert Hload. unfold load_documents. cbn.
    destruct (load_data L (data_directory self)) as [[|d ds]|e]; cbn;
      try reflexivity; discriminate. }
  repeat split; [exact Hd|congruence|].
  intros user_input top_k. unfold query_documents. now rewrite He.
Qed.

Lemma X15_witness :
  let moved :=
    {| data_directory := "./empty"; aws_region := aws_region Scenario.ready;
       documents := documents Scenario.ready; index := index Scenario.ready;
       query_engine := query_engine Scenario.ready;
       calls := calls Scenario.ready |} in
  fst (initialize_system Scenario.library moved) = false
  /\ documents (snd (initialize_system Scenario.library moved)) = []
  /\ query_engine (snd (initialize_system Scenario.library moved))
     = Some ["manual.pdf"%string].
Proof.
  cbv zeta.
  destruct (X15_stale_engine_after_failed_reload Scenario.library
              {| data_directory := "./empty"; aws_region := aws_region Scenario.ready;
                 documents := documents Scenario.ready; index := index Scenario.ready;
                 query_engine := query_engine Scenario.ready;
                 calls := calls Scenario.ready |}
              ["manual.pdf"%string] eq_refl eq_refl) as (H1 & H2 & H3 & _).
  auto.
Defined.

(** ** [query_documents]: the shape of every result *)

(** X16: [query_documents] never raises.  Its result either has a null
    error, a string response and the query, or has a non-empty error
    message, a null response and no sources; in the second case the
    query is echoed whenever the object has a query engine. *)
Theorem X16_query_documents_result_shape
    (L : llama_index) (self : RAGSystem L) (user_input : string) (top_k : Z) :
  exists result,
    query_documents L self user_input top_k = Returns result
    /\ ((is_null result "error"
         /\ (exists s, holds_str result "response" s)
         /\ holds_str result "query" user_input)
        \/ ((exists message, holds_str result "error" message
                             /\ message <> ""%string)
            /\ is_null result "response"
            /\ dict_get "sources" result = Some (PList [])
            /\ (query_engine self <> None ->
                holds_str result "query" user_input))).
Proof.
  unfold query_documents, is_null, holds_str.
  destruct (query_engine self) as [qe|].
  - destruct (engine_query L qe user_input) as [response|e];
      cbn [bind try_except].
    + destruct (collect_sources (source_nodes response) []) as [sources|e];
        cbn [bind try_except]; eexists; (split; [reflexivity|]).
      * left. repeat split. eexists. reflexivity.
      * right. repeat split. eexists. split; [reflexivity|discriminate].
    + eexists. split; [reflexivity|]. right. repeat split.
      eexists. split; [reflexivity|discriminate].
  - eexists. split; [reflexivity|]. right. repeat split.
    + eexists. split; [reflexivity|discriminate].
    + intros H. contradiction.
Qed.

Lemma X16_witness :
  exists result,
    query_documents Scenario.library Scenario.ready "What is AWS Bedrock?" 3
    = Returns result
    /\ holds_str result "query" "What is AWS Bedrock?".
Proof.
  destruct (X16_query_documents_result_shape Scenario.library Scenario.ready
              "What is AWS Bedrock?" 3) as (result & Hr & Hshape).
  exists result. split; [exact Hr|].
  destruct Hshape as [(_ & _ & Hq) | (_ & _ & _ & Hq)].
  - exact Hq.
  - apply Hq. discriminate.
Defined.

Lemma collect_sources_unscored nodes : forall acc,
  (exists node, In node nodes /\ score node = None) ->
  collect_sources nodes acc
  = Raises (MkExc TypeError "type NoneType doesn't define __round__ method").
Proof.
  induction nodes as [|n rest IH]; intros acc (node & Hin & Hs).
  - destruct Hin.
  - cbn [collect_sources]. unfold source_entry, round_score.
    destruct (score n) as [q|] eqn:Hn; cbn [bind]; [|reflexivity].
    apply IH. destruct Hin as [->|Hin]; [congruence|]. now exists node.
Qed.

(** X17: if one of the nodes the engine returns has no score, the whole
    query becomes an error result: the sources collected so far and the
    response of the engine are dropped. *)
Theorem X17_node_without_score_fails_the_query
    (L : llama_index) (self : RAGSystem L) (qe : engine L)
    (user_input : string) (top_k : Z) (answer : response)
    (Hengine : query_engine self = Some qe)
    (Hanswer : engine_query L qe user_input = Returns answer)
    (Hnode : exists node, In node (source_nodes answer) /\ score node = None) :
  query_documents L self user_input top_k
  = Returns [("error",
              PStr "Error processing query: type NoneType doesn't define __round__ method");
             ("response", PNone);
             ("sources", PList []);
             ("query", PStr user_input)].
Proof.
  unfold query_documents. rewrite Hengine, Hanswer. cbn [bind].
  rewrite (collect_sources_unscored _ _ Hnode). reflexivity.
Qed.

Lemma X17_witness :
  query_documents Fixtures.library_unscored Fixtures.ready_unscored
    "What are Authorised Dealers?" 3
  = Returns [("error",
              PStr "Error processing query: type NoneType doesn't define __round__ method");
             ("response", PNone);
             ("sources", PList []);
             ("query", PStr "What are Authorised Dealers?")].
Proof.
  apply (X17_node_without_score_fails_the_query Fixtures.library_unscored
           Fixtures.ready_unscored ["manual.pdf"%string]
           "What are Authorised Dealers?" 3
           {| response_str := "Bedrock is a managed service.";
              source_nodes :=
                [ {| node_id := "n1"; score := Some (1 # 2);
                     text := "AWS Bedrock provides foundation models." |};
                  {| node_id := "n2"; score := None;
                     text := "Authorised Dealers" |} ] |}
           eq_refl eq_refl).
  eexists. split; [right; left; reflexivity|reflexivity].
Defined.

(** X18: the number of documents chosen in the sidebar has no effect.
    [query_documents] and [get_response] give the same result for any
    two values of [top_k], and the pipeline an initialisation builds
    does not depend on the value of the slider. *)
Theorem X18_top_k_is_ignored
    (L : llama_index) (new_claude_model : outcome ClaudeModel)
    (st : session_state L) (query data_dir aws_region : string) (k k' : Z) :
  (forall self : RAGSystem L,
      query_documents L self query k = query_documents L self query k')
  /\ get_response L st query k = get_response L st query k'
  /\ rag_system (press_initialize L new_claude_model st data_dir aws_region k)
     = rag_system (press_initialize L new_claude_model st data_dir aws_region k').
Proof.
  repeat split.
  unfold press_initialize.
  destruct (initialize_rag_system L new_claude_model st data_dir aws_region)
    as [[|] st']; reflexivity.
Qed.

(** ** The chat front end: sessions, results and history *)

Section FrontEnd.

Context (L : llama_index) (new_claude_model : outcome ClaudeModel).

Lemma initialize_system_true_fields (sys : RAGSystem L) :
  fst (initialize_system L sys) = true ->
  exists qe,
    query_engine (snd (initialize_system L sys)) = Some qe
    /\ documents (snd (initialize_system L sys)) <> [].
Proof.
  unfold initialize_system, load_documents, create_index, create_query_engine.
  cbn.
  destruct (load_data L (data_directory sys)) as [[|d ds]|e]; cbn;
    try discriminate.
  destruct (from_documents L (d :: ds)) as [ix|e]; cbn; try discriminate.
  destruct (as_query_engine L ix 3) as [qe|e]; cbn; try discriminate.
  intros _. exists qe. split; [reflexivity|discriminate].
Qed.

Lemma initialize_rag_system_succeeded (st : session_state L) data_dir aws_region :
  let after := initialize_rag_system L new_claude_model st data_dir aws_region in
  fst after = true ->
  (exists sys qe,
      rag_system (snd after) = Some sys
      /\ query_engine sys = Some qe /\ documents sys <> [])
  /\ (claude_model (snd after) = claude_model st
      \/ exists m, new_claude_model = Returns m
                   /\ claude_model (snd after) = Some m).
Proof.
  cbv zeta. unfold initialize_rag_system.
  destruct (RAG.__init__ L data_dir aws_region) as [sys|e]; [|discriminate].
  pose proof (initialize_system_true_fields sys) as Hf.
  destruct (initialize_system L sys) as [[|] sys']; [|discriminate].
  destruct (Hf eq_refl) as (qe & Hq & Hd). cbn in Hq, Hd.
  destruct new_claude_model as [m|e]; cbn; intros _; split;
    try (exists sys', qe; auto).
  - right. now exists m.
  - now left.
Qed.

(** What [get_response] returns, whatever the session. *)
Lemma get_response_shape (st : session_state L) (query : string) (k : Z) :
  exists result,
    get_response L st query k = Returns result
    /\ ((dict_get "error" result = Some PNone
         /\ exists text sources,
              dict_get "response" result = Some text
              /\ dict_get "sources" result = Some sources)
        \/ (exists message,
               dict_get "error" result = Some (PStr message)
               /\ message <> ""%string
               /\ dict_get "response" result = Some PNone
               /\ dict_get "sources" result = Some (PList []))).
Proof.
  unfold get_response.
  assert (Herr : forall message,
             message <> ""%string ->
             exists result,
               Returns (error_result message query) = Returns result
               /\ ((dict_get "error" result = Some PNone
                    /\ exists text sources,
                         dict_get "response" result = Some text
                         /\ dict_get "sources" result = Some sources)
                   \/ (exists m,
                          dict_get "error" result = Some (PStr m)
                          /\ m <> ""%string
                          /\ dict_get "response" result = Some PNone
                          /\ dict_get "sources" result = Some (PList [])))).
  { intros message Hm. eexists. split; [reflexivity|]. right.
    exists message. cbn. auto. }
  destruct (use_direct_claude st) as [[|]|].
  - destruct (claude_model st) as [model|]; [|apply Herr; discriminate].
    destruct (generate_response model query default_temperature default_ai_role)
      as [r|e] eqn:Hg; cbn [bind try_except].
    + destruct (generate_response_has_text _ _ _ _ _ Hg) as (text & Ht).
      cbn [py_getitem]. rewrite Ht. cbn [bind try_except].
      eexists. split; [reflexivity|]. left. cbn. eauto.
    + apply Herr. discriminate.
  - destruct (rag_system st) as [sys|]; [|apply Herr; discriminate].
    destruct (rag_initialized st); [|apply Herr; discriminate].
    unfold query_documents. destruct (query_engine sys) as [qe|].
    + destruct (engine_query L qe query) as [response|e]; cbn [bind try_except].
      * destruct (collect_sources (source_nodes response) []) as [sources|e];
          cbn [bind try_except]; eexists; (split; [reflexivity|]).
        -- left. cbn. eauto.
        -- right. eexists. cbn. repeat split. discriminate.
      * eexists. split; [reflexivity|]. right. eexists. cbn.
        repeat split. discriminate.
    + eexists. split; [reflexivity|]. right. eexists. cbn.
      repeat split. discriminate.
  - destruct (rag_system st) as [sys|]; [|apply Herr; discriminate].
    destruct (rag_initialized st); [|apply Herr; discriminate].
    unfold query_documents. destruct (query_engine sys) as [qe|].
    + destruct (engine_query L qe query) as [response|e]; cbn [bind try_except].
      * destruct (collect_sources (source_nodes response) []) as [sources|e];
          cbn [bind try_except]; eexists; (split; [reflexivity|]).
        -- left. cbn. eauto.
        -- right. eexists. cbn. repeat split. discriminate.
      * eexists. split; [reflexivity|]. right. eexists. cbn.
        repeat split. discriminate.
    + eexists. split; [reflexivity|]. right. eexists. cbn.
      repeat split. discriminate.
Qed.

End FrontEnd.

(** X19: in every session the sidebar can produce from a new one, the
    flag [rag_initialized] is set only if the session holds a
    [RAGSystem] with documents and a query engine, and a Claude model is
    present only if it is the one the constructor returned. *)
Theorem X19_reachable_sessions_are_consistent
    (L : llama_index) (new_claude_model : outcome ClaudeModel)
    (st : session_state L) (Hreach : reachable L new_claude_model st) :
  (rag_initialized st = true ->
   exists sys qe,
     rag_system st = Some sys
     /\ query_engine sys = Some qe /\ documents sys <> [])
  /\ (forall m, claude_model st = Some m -> new_claude_model = Returns m).
Proof.
  induction Hreach as [|st data_dir aws_region k Hreach [IHr IHc]
                       |st checked Hreach IH].
  - split; cbn; [discriminate|discriminate].
  - unfold press_initialize.
    pose proof (initialize_rag_system_succeeded L new_claude_model
                  st data_dir aws_region) as Hs.
    pose proof (initialize_rag_system_failed L new_claude_model
                  st data_dir aws_region) as Hf.
    cbv zeta in Hs.
    destruct (initialize_rag_system L new_claude_model st data_dir aws_region)
      as [[|] st']; cbn in *.
    + destruct (Hs eq_refl) as (Hsys & Hm). split; [intros _; exact Hsys|].
      intros m Hc. destruct Hm as [Hm | (m' & Hn & Hm)].
      * apply IHc. congruence.
      * congruence.
    + split; [discriminate|]. intros m Hc. apply IHc. rewrite <- Hf; auto.
  - exact IH.
Qed.

Lemma X19_witness :
  exists sys qe,
    rag_system (session Fixtures.ready_app) = Some sys
    /\ query_engine sys = Some qe /\ documents sys <> [].
Proof.
  apply (proj1 (X19_reachable_sessions_are_consistent Scenario.library
                  (Returns Scenario.claude_ok) (session Fixtures.ready_app)
                  (reachable_press Scenario.library (Returns Scenario.claude_ok)
                     (new_session Scenario.library) "./data" "eu-central-1" 5
                     (reachable_new Scenario.library (Returns Scenario.claude_ok))))).
  reflexivity.
Defined.

(** X20: [get_response] never raises.  Its result has either a null
    error together with a response and a sources entry, or a non-empty
    error message, a null response and no sources; and in every session
    the sidebar can produce, the result echoes the query. *)
Theorem X20_get_response_result_shape
    (L : llama_index) (new_claude_model : outcome ClaudeModel)
    (st : session_state L) (query : string) (k : Z) :
  exists result,
    get_response L st query k = Returns result
    /\ ((is_null result "error"
         /\ exists text sources,
              dict_get "response" result = Some text
              /\ dict_get "sources" result = Some sources)
        \/ (exists message,
               holds_str result "error" message
               /\ message <> ""%string
               /\ is_null result "response"
               /\ dict_get "sources" result = Some (PList [])))
    /\ (reachable L new_claude_model st -> holds_str result "query" query).
Proof.
  destruct (get_response_shape L st query k) as (result & Hr & Hshape).
  exists result. split; [exact Hr|]. split; [exact Hshape|].
  intros Hreach.
  assert (Hinv : rag_initialized st = true ->
                 exists sys qe,
                   rag_system st = Some sys /\ query_engine sys = Some qe).
  { clear Hr Hshape.
    induction Hreach as [|st data_dir aws_region k' Hreach IH
                         |st checked Hreach IH].
    - discriminate.
    - unfold press_initialize.
      pose proof (initialize_rag_system_succeeded L new_claude_model
                    st data_dir aws_region) as Hs.
      cbv zeta in Hs.
      destruct (initialize_rag_system L new_claude_model st data_dir aws_region)
        as [[|] st']; cbn in *; [|discriminate].
      intros _. destruct (Hs eq_refl) as ((sys & qe & H1 & H2 & _) & _).
      now exists sys, qe.
    - exact IH. }
  revert Hr. unfold get_response, holds_str.
  assert (Hrag :
            match rag_system st, rag_initialized st with
            | Some sys, true =>
                try_except (query_documents L sys query k)
                  (fun e => Returns (error_result
                                       ("RAG query error: " ++ exc_str e)%string
                                       query))
            | _, _ =>
                Returns (error_result
                           "RAG system not initialized. Please initialize it first using the sidebar."
                           query)
            end = Returns result ->
            dict_get "query" result = Some (PStr query)).
  { destruct (rag_system st) as [sys|] eqn:Hsys;
      [|intros H; injection H as <-; reflexivity].
    destruct (rag_initialized st);
      [|intros H; injection H as <-; reflexivity].
    destruct (Hinv eq_refl) as (sys' & qe & Hs' & Hq).
    injection Hs' as <-. unfold query_documents. rewrite Hq.
    destruct (engine_query L qe query) as [response|e]; cbn [bind try_except].
    - destruct (collect_sources (source_nodes response) []) as [sources|e];
        cbn [bind try_except]; intros H; injection H as <-; reflexivity.
    - intros H; injection H as <-; reflexivity. }
  destruct (use_direct_claude st) as [[|]|]; try exact Hrag.
  destruct (claude_model st) as [model|];
    [|intros H; injection H as <-; reflexivity].
  destruct (generate_response model query default_temperature default_ai_role)
    as [r|e] eqn:Hg; cbn [bind try_except].
  - destruct (generate_response_has_text _ _ _ _ _ Hg) as (text & Ht).
    cbn [py_getitem]. rewrite Ht. cbn [bind try_except].
    intros H; injection H as <-; reflexivity.
  - intros H; injection H as <-; reflexivity.
Qed.

Lemma X20_witness :
  exists result,
    get_response Scenario.library (session Fixtures.ready_app)
      "What is AWS Bedrock?" 5 = Returns result
    /\ holds_str result "query" "What is AWS Bedrock?".
Proof.
  destruct (X20_get_response_result_shape Scenario.library
              (Returns Scenario.claude_ok) (session Fixtures.ready_app)
              "What is AWS Bedrock?" 5) as (result & Hr & _ & Hq).
  exists result. split; [exact Hr|].
  apply Hq.
  exact (reachable_press Scenario.library (Returns Scenario.claude_ok)
           (new_session Scenario.library) "./data" "eu-central-1" 5
           (reachable_new Scenario.library (Returns Scenario.claude_ok))).
Defined.

Section ChatHistory.

Context (L : llama_index) (new_claude_model : outcome ClaudeModel)
        (format_value : pyval -> string).

(** The assistant's turn for what [get_response] returned. *)
Lemma assistant_turn_of_response (st : session_state L) (query : string) (k : Z) :
  exists result content sources,
    get_response L st query k = Returns result
    /\ assistant_turn format_value result = Returns (content, sources)
    /\ (forall message,
           holds_str result "error" message ->
           content = PStr ("❌ Error: " ++ format_value (PStr message))%string
           /\ sources = PList [])
    /\ (is_null result "error" ->
        dict_get "response" result = Some content
        /\ dict_get "sources" result = Some sources).
Proof.
  destruct (get_response_shape L st query k)
    as (result & Hr & [(He & text & srcs & Ht & Hs)
                      | (message & He & Hm & Ht & Hs)]).
  - exists result, text, srcs. split; [exact Hr|].
    unfold assistant_turn, holds_str, is_null. cbn [py_getitem].
    rewrite He, Ht, Hs. cbn. repeat split; auto; intros; congruence.
  - exists result, (PStr ("❌ Error: " ++ format_value (PStr message))%string),
      (PList []).
    split; [exact Hr|].
    unfold assistant_turn, holds_str, is_null. cbn [py_getitem].
    rewrite He. cbn [bind py_truthy].
    destruct (String.eqb_spec message ""); [contradiction|]. cbn [negb].
    repeat split; intros; congruence.
Qed.

Lemma display_chat_interface_returns (app : app_state L) (k : Z)
    (prompt : option string) :
  exists app',
    display_chat_interface L format_value app k prompt = Returns app'
    /\ session app' = session app.
Proof.
  unfold display_chat_interface. destruct prompt as [prompt|].
  - destruct (py_truthy (PStr prompt)).
    + destruct (assistant_turn_of_response (session app) prompt k)
        as (result & content & sources & Hr & Ht & _).
      rewrite Hr. cbn [bind]. rewrite Ht. cbn [bind].
      eexists. split; reflexivity.
    + eexists. split; reflexivity.
  - eexists. split; reflexivity.
Qed.

End ChatHistory.

(** X21: answering a prompt never raises and appends exactly two
    messages to the history, the user's with the prompt and the
    assistant's; earlier messages are kept.  When [get_response]
    reported an error the assistant's message is the error text and
    carries no sources, otherwise it carries the response and the
    sources of the result. *)
Theorem X21_chat_appends_user_and_assistant_message
    (L : llama_index) (format_value : pyval -> string)
    (app : app_state L) (k : Z) (prompt : string)
    (Hprompt : prompt <> ""%string) :
  let history := match messages app with Some m => m | None => [] end in
  exists result content sources,
    get_response L (session app) prompt k = Returns result
    /\ display_chat_interface L format_value app k (Some prompt)
       = Returns {| session := session app;
                    messages :=
                      Some (history
                            ++ [[("role", PStr "user"); ("content", PStr prompt)];
                                [("role", PStr "assistant");
                                 ("content", content);
                                 ("sources", sources)]]) |}
    /\ (forall message,
           holds_str result "error" message ->
           content = PStr ("❌ Error: " ++ format_value (PStr message))%string
           /\ sources = PList [])
    /\ (is_null result "error" ->
        dict_get "response" result = Some content
        /\ dict_get "sources" result = Some sources).
Proof.
  cbv zeta.
  destruct (assistant_turn_of_response L format_value (session app) prompt k)
    as (result & content & sources & Hr & Ht & Herr & Hok).
  exists result, content, sources. split; [exact Hr|].
  split; [|split; assumption].
  unfold display_chat_interface. cbn [py_truthy].
  destruct (String.eqb_spec prompt ""); [contradiction|]. cbn [negb].
  rewrite Hr. cbn [bind]. rewrite Ht. cbn [bind].
  now rewrite <- app_assoc.
Qed.

Lemma X21_witness :
  exists result content sources,
    get_response Scenario.library (session Fixtures.new_app)
      "What is AWS Bedrock?" 5 = Returns result
    /\ display_chat_interface Scenario.library Fixtures.demo_format
         Fixtures.new_app 5 (Some "What is AWS Bedrock?"%string)
       = Returns {| session := session Fixtures.new_app;
                    messages :=
                      Some ([]
                            ++ [[("role", PStr "user");
                                 ("content", PStr "What is AWS Bedrock?")];
                                [("role", PStr "assistant");
                                 ("content", content);
                                 ("sources", sources)]]) |}
    /\ (forall message,
           holds_str result "error" message ->
           content = PStr ("❌ Error: " ++ Fixtures.demo_format (PStr message))%string
           /\ sources = PList [])
    /\ (is_null result "error" ->
        dict_get "response" result = Some content
        /\ dict_get "sources" result = Some sources).
Proof.
  apply (X21_chat_appends_user_and_assistant_message Scenario.library
           Fixtures.demo_format Fixtures.new_app 5 "What is AWS Bedrock?").
  discriminate.
Defined.

(** X22: a run of the script never raises, and it answers a prompt only
    in a session that is initialised: if [rag_initialized] is false
    after the sidebar has been handled, or if the initialize button was
    pressed in this run, the chat history is left as it was, with or
    without the direct-Claude box ticked.  In an initialised session the
    clear button empties the history. *)
Theorem X22_run_answers_only_when_initialised
    (L : llama_index) (new_claude_model : outcome ClaudeModel)
    (format_value : pyval -> string) (app : app_state L)
    (inp : sidebar_input) (prompt : option string) (clear_pressed : bool) :
  exists app',
    run L new_claude_model format_value app inp prompt clear_pressed
    = Returns app'
    /\ session app' = fst (sidebar_config L new_claude_model (session app) inp)
    /\ (rag_initialized (session app') = false -> messages app' = messages app)
    /\ (initialize_pressed inp = true -> messages app' = messages app)
    /\ (rag_initialized (session app') = true ->
        initialize_pressed inp = false -> clear_pressed = true ->
        messages app' = Some []).
Proof.
  unfold run, sidebar_config.
  destruct (initialize_pressed inp).
  - destruct (rag_initialized (press_initialize _ _ _ _ _ _)) eqn:Hi;
      cbn [fst snd negb rag_initialized set_use_direct_claude]; try rewrite Hi;
      cbn [negb]; eexists; (split; [reflexivity|]);
      repeat split; cbn; intros; try discriminate; try reflexivity;
      congruence.
  - cbn [fst snd rag_initialized set_use_direct_claude].
    destruct (rag_initialized (session app)) eqn:Hi; cbn [negb].
    + match goal with
      | |- context [display_chat_interface L format_value ?a ?k ?p] =>
          destruct (display_chat_interface_returns L format_value a k p)
            as (app' & Hd & Hs)
      end.
      rewrite Hd. cbn [bind]. cbn in Hs.
      destruct clear_pressed; eexists; (split; [reflexivity|]);
        cbn [session messages]; rewrite Hs; cbn;
        repeat split; intros; try discriminate;
        first [reflexivity | congruence].
    + eexists. split; [reflexivity|].
      repeat split; cbn; intros; try discriminate;
        first [reflexivity | congruence].
Qed.

Lemma X22_witness :
  exists app',
    run Scenario.library (Returns Scenario.claude_ok) Fixtures.demo_format
      Fixtures.new_app (Fixtures.idle true) (Some "What is AWS Bedrock?"%string)
      false
    = Returns app'
    /\ messages app' = messages Fixtures.new_app.
Proof.
  destruct (X22_run_answers_only_when_initialised Scenario.library
              (Returns Scenario.claude_ok) Fixtures.demo_format
              Fixtures.new_app (Fixtures.idle true)
              (Some "What is AWS Bedrock?"%string) false)
    as (app' & Hr & Hs & Hm & _).
  exists app'. split; [exact Hr|].
  apply Hm. rewrite Hs. reflexivity.
Defined.

(** ** Utilities: truncation and highlighting *)

Lemma length_str_append (a b : string) :
  String.length (a ++ b)%string = (String.length a + String.length b)%nat.
Proof. induction a as [|c a IH]; cbn; [reflexivity|]. now rewrite IH. Qed.

Lemma length_str_take (n : nat) (s : string) :
  (n <= String.length s)%nat -> String.length (str_take n s) = n.
Proof.
  unfold str_take. revert n.
  induction s as [|c s IH]; intros [|n] H; cbn in *; try reflexivity; try lia.
  rewrite IH; [reflexivity|lia].
Qed.

(** X23: [truncate_text] returns a text of at most [max_length]
    characters unchanged; a longer text becomes its first [max_length]
    characters followed by "...", which is [max_length] + 3 characters
    long.  The preview [query_documents] computes inline is
    [truncate_text] at 150. *)
Theorem X23_truncate_text (text : string) (max_length : nat) :
  ((String.length text <= max_length)%nat ->
   Utils.truncate_text text max_length = text)
  /\ ((max_length < String.length text)%nat ->
      Utils.truncate_text text max_length
      = (first_chars max_length text ++ "...")%string
      /\ String.length (Utils.truncate_text text max_length)
         = (max_length + 3)%nat)
  /\ (String.length (Utils.truncate_text text max_length)
      <= max_length + 3)%nat
  /\ text_preview text = Utils.truncate_text text 150.
Proof.
  unfold Utils.truncate_text.
  destruct (Nat.leb_spec (String.length text) max_length) as [H|H].
  - repeat split; try lia. apply text_preview_is_truncate_text.
  - rewrite length_str_append, length_str_take by lia. cbn [String.length].
    repeat split; try lia.
    + now rewrite str_take_first_chars.
    + apply text_preview_is_truncate_text.
Qed.

Lemma X23_witness :
  Utils.truncate_text "AWS Bedrock" 150 = "AWS Bedrock"%string
  /\ Utils.truncate_text "AWS Bedrock" 3 = "AWS..."%string
  /\ String.length (Utils.truncate_text Scenario.long_text 150) = 153%nat.
Proof.
  split; [|split].
  - apply (proj1 (X23_truncate_text "AWS Bedrock" 150)). cbn. lia.
  - apply (proj1 (proj2 (X23_truncate_text "AWS Bedrock" 3))). cbn. lia.
  - apply (proj1 (proj2 (X23_truncate_text Scenario.long_text 150))).
    vm_compute. lia.
Defined.

Lemma replace_from_absent (old new s : string) :
  str_contains old s = false -> replace_from old new s 0 = s.
Proof.
  induction s as [|c s IH]; [reflexivity|].
  cbn [str_contains replace_from].
  destruct (String.prefix old (String c s)); [discriminate|].
  intros H. now rewrite IH.
Qed.

Lemma str_replace_absent (s old new : string) :
  str_contains old s = false -> str_replace s old new = s.
Proof.
  unfold str_replace. intros H.
  destruct (String.eqb_spec old "") as [->|_].
  - destruct s; discriminate.
  - now apply replace_from_absent.
Qed.

(** X24: [highlight_search_terms] marks only occurrences written
    exactly as the term.  If no term occurs in the text with the same
    case, the text comes back unchanged, even for a term that the
    case-insensitive test of the loop finds. *)
Theorem X24_highlight_needs_same_case
    (text : string) (search_terms : list string)
    (Habsent : forall term, In term search_terms ->
                            str_contains term text = false) :
  highlight_search_terms text search_terms = text.
Proof.
  unfold highlight_search_terms.
  induction search_terms as [|term rest IH]; [reflexivity|].
  cbn [highlight_loop].
  rewrite str_replace_absent by (apply Habsent; now left).
  destruct (str_contains (str_lower term) (str_lower text));
    apply IH; intros t Ht; apply Habsent; now right.
Qed.

Lemma X24_witness :
  str_contains (str_lower "aws") (str_lower "AWS Bedrock") = true
  /\ highlight_search_terms "AWS Bedrock" ["aws"; "bedrock"]%string
     = "AWS Bedrock"%string.
Proof.
  split; [reflexivity|].
  apply (X24_highlight_needs_same_case "AWS Bedrock" ["aws"; "bedrock"]%string).
  intros term [<-|[<-|[]]]; reflexivity.
Defined.

(** ** Utilities: file sizes *)

Lemma scale_loop_spec (fuel : nat) : forall (size : Q) (i : nat),
  exists n : nat,
    snd (scale_loop fuel size i) = (i + n)%nat
    /\ (fst (scale_loop fuel size i) * inject_Z (1024 ^ Z.of_nat n) == size)%Q
    /\ ((0 < n)%nat -> (1 <= fst (scale_loop fuel size i))%Q)
    /\ ((3 <= i + fuel)%nat -> (snd (scale_loop fuel size i) < 3)%nat ->
        (fst (scale_loop fuel size i) < 1024)%Q)
    /\ ((i <= 3)%nat -> (snd (scale_loop fuel size i) <= 3)%nat).
Proof.
  induction fuel as [|fuel IH]; intros size i.
  - exists 0%nat. cbn. repeat split; try lia. ring.
  - cbn [scale_loop].
    change (List.length size_names - 1)%nat with 3%nat.
    destruct (Qle_bool 1024 size) eqn:Hq; cbn [andb].
    + destruct (Nat.ltb_spec i 3) as [Hi|Hi].
      * apply Qle_bool_iff in Hq.
        destruct (IH (size / 1024)%Q (S i)) as (n & Hj & Hv & H1 & H4 & H5).
        exists (S n). repeat split.
        -- rewrite Hj. lia.
        -- rewrite Nat2Z.inj_succ, Z.pow_succ_r by lia.
           rewrite inject_Z_mult.
           setoid_replace
             (fst (scale_loop fuel (size / 1024) (S i))
              * (inject_Z 1024 * inject_Z (1024 ^ Z.of_nat n)))%Q
             with (fst (scale_loop fuel (size / 1024) (S i))
                   * inject_Z (1024 ^ Z.of_nat n) * 1024)%Q
             by (change (inject_Z 1024) with 1024%Q; ring).
           rewrite Hv. field.
        -- intros _. destruct n as [|n].
           ++ cbn in Hv. rewrite Qmult_1_r in Hv. rewrite Hv.
              apply Qle_shift_div_l; [reflexivity|]. now rewrite Qmult_1_l.
           ++ apply H1. lia.
        -- intros Hf. apply H4. lia.
        -- intros _. apply H5. lia.
      * exists 0%nat. cbn. repeat split; try lia. ring.
    + exists 0%nat. cbn. repeat split; try lia; [ring|].
      intros _ _. apply Qnot_le_lt. intros H.
      apply Qle_bool_iff in H. congruence.
Qed.

(** X25: [format_file_size] writes "0B" for 0.  For any other size it
    writes a number with one decimal followed by one of the units B,
    KB, MB, GB, where the number times 1024 to the power of the unit's
    rank is the size; below GB the number is less than 1024, and above
    B it is at least 1.  A size below 1024, negative ones included, is
    written in bytes.  (The float division by 1024.0 is taken as the
    exact quotient.) *)
Theorem X25_format_file_size_units (size_bytes : Z) :
  format_file_size 0 = "0B"%string
  /\ (size_bytes <> 0 ->
      exists (v : Q) (i : nat) (unit_name : string),
        format_file_size size_bytes = (format_1f v ++ unit_name)%string
        /\ nth_error size_names i = Some unit_name
        /\ (v * inject_Z (1024 ^ Z.of_nat i) == inject_Z size_bytes)%Q
        /\ ((i < 3)%nat -> (v < 1024)%Q)
        /\ ((0 < i)%nat -> (1 <= v)%Q))
  /\ (size_bytes <> 0 -> size_bytes < 1024 ->
      format_file_size size_bytes
      = (format_1f (inject_Z size_bytes) ++ "B")%string).
Proof.
  split; [reflexivity|]. unfold format_file_size. split.
  - intros Hz. destruct (Z.eqb_spec size_bytes 0) as [|_]; [contradiction|].
    destruct (scale_loop_spec (List.length size_names) (inject_Z size_bytes) 0)
      as (n & Hj & Hv & H1 & H4 & H5).
    destruct (scale_loop (List.length size_names) (inject_Z size_bytes) 0)
      as [v i]. cbn [fst snd] in *. subst i. cbn [Nat.add] in *.
    assert (Hn : (n <= 3)%nat) by (apply H5; lia).
    exists v, n, (nth n size_names ""%string). repeat split.
    + destruct n as [|[|[|[|n]]]]; try reflexivity. lia.
    + exact Hv.
    + apply H4. cbn. lia.
    + exact H1.
  - intros Hz Hlt. destruct (Z.eqb_spec size_bytes 0) as [|_]; [contradiction|].
    cbn [List.length size_names scale_loop].
    replace (Qle_bool 1024 (inject_Z size_bytes)) with false; [reflexivity|].
    symmetry. apply not_true_is_false. intros H. apply Qle_bool_iff in H.
    unfold Qle in H. cbn in H. lia.
Qed.

Lemma X25_witness :
  format_file_size 1536 = "1.5KB"%string
  /\ format_file_size (-5) = "-5.0B"%string
  /\ exists (v : Q) (i : nat) (unit_name : string),
       format_file_size 1048575 = (format_1f v ++ unit_name)%string
       /\ nth_error size_names i = Some unit_name
       /\ (v * inject_Z (1024 ^ Z.of_nat i) == inject_Z 1048575)%Q
       /\ ((i < 3)%nat -> (v < 1024)%Q)
       /\ ((0 < i)%nat -> (1 <= v)%Q).
Proof.
  split; [reflexivity|]. split.
  - apply (proj2 (proj2 (X25_format_file_size_units (-5)))); lia.
  - apply (proj1 (proj2 (X25_format_file_size_units 1048575))). lia.
Defined.

(** ** Utilities: listing a directory *)

Lemma insert_sorted_perm (x : string) (l : list string) :
  Permutation (insert_sorted x l) (x :: l).
Proof.
  induction l as [|y l IH]; cbn; [reflexivity|].
  destruct (String.leb x y); [reflexivity|].
  rewrite IH. apply perm_swap.
Qed.

Lemma sorted_perm (l : list string) : Permutation (sorted l) l.
Proof.
  induction l as [|x l IH]; cbn; [constructor|].
  rewrite insert_sorted_perm. now constructor.
Qed.

Lemma insert_sorted_Sorted (x : string) (l : list string) :
  Sorted (fun a b => String.leb a b = true) l ->
  Sorted (fun a b => String.leb a b = true) (insert_sorted x l).
Proof.
  induction l as [|y l IH]; intros Hs; cbn.
  - repeat constructor.
  - destruct (String.leb x y) eqn:Hxy.
    + constructor; [exact Hs|]. now constructor.
    + inversion Hs as [|? ? Hs' Hd]; subst.
      constructor; [now apply IH|].
      assert (Hyx : String.leb y x = true).
      { destruct (String.leb_total x y) as [H|H]; [congruence|exact H]. }
      destruct l as [|z l]; cbn.
      * now constructor.
      * destruct (String.leb x z); constructor; [exact Hyx|].
        now inversion Hd.
Qed.

Lemma sorted_Sorted (l : list string) :
  Sorted (fun a b => String.leb a b = true) (sorted l).
Proof.
  induction l as [|x l IH]; cbn; [constructor|].
  now apply insert_sorted_Sorted.
Qed.

Lemma get_file_list_loop_filter (os : os_module) directory extensions names :
  forall files,
    get_file_list_loop os directory extensions names files
    = files
      ++ filter
           (fun filename =>
              path_isfile os (path_join os directory filename)
              && match extensions with
                 | None => true
                 | Some exts => any_extension filename exts
                 end)
           names.
Proof.
  induction names as [|filename rest IH]; intros files; cbn.
  - now rewrite app_nil_r.
  - rewrite IH.
    destruct (path_isfile os (path_join os directory filename)); cbn;
      [|reflexivity].
    destruct extensions as [exts|]; [|now rewrite <- app_assoc].
    destruct (any_extension filename exts); [now rewrite <- app_assoc|].
    reflexivity.
Qed.

(** X26: [get_file_list] returns the empty list for a path that is not
    a directory and lets an error of [os.listdir] through.  Otherwise
    its result is in ascending order and consists of exactly the names
    of the directory that are regular files and, when extensions are
    given, end with one of them without regard to case; with an empty
    list of extensions the result is empty. *)
Theorem X26_get_file_list
    (os : os_module) (directory : string) (extensions : option (list string)) :
  (path_isdir os directory = false ->
   get_file_list os directory extensions = Returns [])
  /\ (forall e, path_isdir os directory = true ->
                listdir os directory = Raises e ->
                get_file_list os directory extensions = Raises e)
  /\ (forall names,
        path_isdir os directory = true ->
        listdir os directory = Returns names ->
        exists files,
          get_file_list os directory extensions = Returns files
          /\ Sorted (fun a b => String.leb a b = true) files
          /\ Permutation files
               (filter
                  (fun filename =>
                     path_isfile os (path_join os directory filename)
                     && match extensions with
                        | None => true
                        | Some exts =>
                            existsb
                              (fun ext =>
                                 str_endswith (str_lower filename) (str_lower ext))
                              exts
                        end)
                  names)
          /\ (extensions = Some [] -> files = [])).
Proof.
  unfold get_file_list, check_directory_exists. repeat split.
  - intros ->. reflexivity.
  - intros e -> ->. reflexivity.
  - intros names -> ->. cbn [negb bind].
    eexists. split; [reflexivity|].
    rewrite get_file_list_loop_filter. cbn [app].
    split; [apply sorted_Sorted|]. split; [apply sorted_perm|].
    intros ->. cbn [any_extension existsb].
    assert (H : forall l : list string,
               filter (fun filename =>
                         path_isfile os (path_join os directory filename) && false)
                 l = []).
    { induction l as [|a l IHl]; cbn; [reflexivity|].
      now rewrite andb_false_r. }
    unfold any_extension. cbn [existsb]. now rewrite H.
Qed.

Lemma X26_witness :
  get_file_list Fixtures.demo_os "./missing" None = Returns []
  /\ exists files,
       get_file_list Fixtures.demo_os "./data" (Some [".pdf"%string])
       = Returns files
       /\ Sorted (fun a b => String.leb a b = true) files
       /\ Permutation files ["manual.PDF"; "codes.pdf"]%string
       /\ (Some [".pdf"%string] = Some [] -> files = []).
Proof.
  split.
  - apply (proj1 (X26_get_file_list Fixtures.demo_os "./missing" None)).
    reflexivity.
  - apply (proj2 (proj2 (X26_get_file_list Fixtures.demo_os "./data"
                           (Some [".pdf"%string])))
             ["notes.txt"; "manual.PDF"; "archive"; "codes.pdf"; "README"]%string);
      reflexivity.
Defined.

(** ** Utilities: statistics of a directory *)

Lemma counts_set_sum (key : string) (d : list (string * Z)) :
  fold_right Z.add 0 (map snd (counts_set key (counts_get key d 0 + 1) d))
  = fold_right Z.add 0 (map snd d) + 1.
Proof.
  induction d as [|[k v] d IH]; cbn; [lia|].
  destruct (String.eqb key k); cbn; [lia|]. rewrite IH. lia.
Qed.

Lemma stats_loop_spec (os : os_module) (directory : string) names :
  forall file_count total_size file_types file_count' total_size' file_types',
    stats_loop os directory names file_count total_size file_types
    = Returns (file_count', total_size', file_types') ->
    let files :=
      filter (fun filename => path_isfile os (path_join os directory filename))
        names in
    file_count' = file_count + Z.of_nat (List.length files)
    /\ fold_right Z.add 0 (map snd file_types')
       = fold_right Z.add 0 (map snd file_types) + Z.of_nat (List.length files)
    /\ exists sizes,
         Forall2 (fun filename size =>
                    getsize os (path_join os directory filename) = Returns size)
           files sizes
         /\ total_size' = total_size + fold_right Z.add 0 sizes.
Proof.
  induction names as [|filename rest IH];
    intros file_count total_size file_types file_count' total_size' file_types' H;
    cbn in H |- *.
  - injection H as <- <- <-. repeat split; try lia.
    exists []. split; [constructor|cbn; lia].
  - destruct (path_isfile os (path_join os directory filename)) eqn:Hf.
    + destruct (getsize os (path_join os directory filename)) as [size|e] eqn:Hg;
        cbn [bind] in H; [|discriminate].
      apply IH in H. cbv zeta in H.
      destruct H as (Hc & Hs & sizes & Hall & Ht).
      cbn [List.length]. rewrite Nat2Z.inj_succ. repeat split.
      * lia.
      * rewrite Hs.
        match goal with
        | |- context [if ?b then _ else _] => destruct b
        end; rewrite counts_set_sum; lia.
      * exists (size :: sizes). split; [now constructor|]. cbn. lia.
    + apply IH in H. exact H.
Qed.

(** X27: for a path that is not a directory, [get_directory_stats]
    returns zero counts and no [total_size_formatted] entry.  For a
    directory, a returned result counts the names that are regular
    files, adds up their sizes, formats that sum with
    [format_file_size], and its counts per file type add up to the
    number of files. *)
Theorem X27_get_directory_stats (os : os_module) (directory : string) :
  (path_isdir os directory = false ->
   exists result,
     get_directory_stats os directory = Returns result
     /\ dict_get "exists" result = Some (PBool false)
     /\ dict_get "file_count" result = Some (PInt 0)
     /\ dict_get "total_size" result = Some (PInt 0)
     /\ dict_get "file_types" result = Some (PDict [])
     /\ dict_get "total_size_formatted" result = None)
  /\ (forall result,
        path_isdir os directory = true ->
        get_directory_stats os directory = Returns result ->
        exists names sizes file_types,
          let files :=
            filter (fun filename =>
                      path_isfile os (path_join os directory filename)) names in
          listdir os directory = Returns names
          /\ Forall2 (fun filename size =>
                        getsize os (path_join os directory filename)
                        = Returns size)
               files sizes
          /\ dict_get "exists" result = Some (PBool true)
          /\ dict_get "file_count" result
             = Some (PInt (Z.of_nat (List.length files)))
          /\ dict_get "total_size" result
             = Some (PInt (fold_right Z.add 0 sizes))
          /\ dict_get "total_size_formatted" result
             = Some (PStr (format_file_size (fold_right Z.add 0 sizes)))
          /\ dict_get "file_types" result = Some (counts_dict file_types)
          /\ fold_right Z.add 0 (map snd file_types)
             = Z.of_nat (List.length files)).
Proof.
  unfold get_directory_stats, check_directory_exists. split.
  - intros ->. cbn [negb]. eexists. repeat split.
  - intros result -> H. cbn [negb] in H.
    destruct (listdir os directory) as [names|e]; cbn [bind] in H;
      [|discriminate].
    destruct (stats_loop os directory names 0 0 [])
      as [[[file_count total_size] file_types]|e] eqn:Hl; cbn [bind] in H;
      [|discriminate].
    injection H as <-.
    apply stats_loop_spec in Hl. cbv zeta in Hl.
    destruct Hl as (Hc & Hs & sizes & Hall & Ht).
    exists names, sizes, file_types. cbv zeta. cbn in Hc, Hs, Ht. subst.
    repeat split; try assumption.
Qed.

Lemma X27_witness :
  (exists result,
      get_directory_stats Fixtures.demo_os "./missing" = Returns result
      /\ dict_get "exists" result = Some (PBool false)
      /\ dict_get "file_count" result = Some (PInt 0)
      /\ dict_get "total_size" result = Some (PInt 0)
      /\ dict_get "file_types" result = Some (PDict [])
      /\ dict_get "total_size_formatted" result = None)
  /\ dict_get "file_count" Fixtures.data_stats = Some (PInt 4)
  /\ dict_get "total_size_formatted" Fixtures.data_stats = Some (PStr "3.5KB")
  /\ exists names sizes file_types,
       let files :=
         filter (fun filename =>
                   path_isfile Fixtures.demo_os
                     (path_join Fixtures.demo_os "./data" filename)) names in
       listdir Fixtures.demo_os "./data" = Returns names
       /\ Forall2 (fun filename size =>
                     getsize Fixtures.demo_os
                       (path_join Fixtures.demo_os "./data" filename)
                     = Returns size)
            files sizes
       /\ dict_get "exists" Fixtures.data_stats = Some (PBool true)
       /\ dict_get "file_count" Fixtures.data_stats
          = Some (PInt (Z.of_nat (List.length files)))
       /\ dict_get "total_size" Fixtures.data_stats
          = Some (PInt (fold_right Z.add 0 sizes))
       /\ dict_get "total_size_formatted" Fixtures.data_stats
          = Some (PStr (format_file_size (fold_right Z.add 0 sizes)))
       /\ dict_get "file_types" Fixtures.data_stats
          = Some (counts_dict file_types)
       /\ fold_right Z.add 0 (map snd file_types)
          = Z.of_nat (List.length files).
Proof.
  split; [|split; [reflexivity|split; [reflexivity|]]].
  - apply (proj1 (X27_get_directory_stats Fixtures.demo_os "./missing")).
    reflexivity.
  - apply (proj2 (X27_get_directory_stats Fixtures.demo_os "./data")
             Fixtures.data_stats); reflexivity.
Defined.
